(** * Credential lifecycle of the kublish backend

    A shallow embedding of the OAuth2 credential code of the backend:

    - [TokenStoreService]   : [backend/src/services/tokenStore.ts], the
      Redis backed store of per-user token records;
    - [SalesforceLive]      : the live-API route built on that service
      (proactive refresh, 30 s margin);
    - [SalesforceLiveMemory]: the variant of the live-API route that keeps
      its own in-memory [tokenStore] and retries once on [401];
    - [SalesforceAuth]      : [backend/src/routes/salesforceAuth.ts], the
      authorization-code flow with sessions keyed by [state].

    The Node process is single threaded: a handler runs without
    interruption up to its next [await].  Every operation below is a state
    transformer over one [World]: the clock, the module-level stores of the
    process, the external Redis instance, and the trace of what the process
    has emitted so far (console lines and outbound HTTP requests).  What the
    outside world answers (the provider, the random source) is read from an
    [Env]. *)

From Stdlib Require Import ZArith Lia Ascii String.
From stdpp Require Import base option strings pretty list gmap.

Open Scope string_scope.
Open Scope Z_scope.

(** ** JavaScript values *)

(** A property that may be [undefined] is an [option]; a string is falsy when
    it is [undefined] or empty. *)
Definition truthy (v : option string) : bool :=
  match v with
  | Some s => negb (String.eqb s "")
  | None => false
  end.

(** [a || b] on possibly undefined strings. *)
Definition js_or (a b : option string) : option string :=
  if truthy a then a else b.

(** The value when it is truthy. *)
Definition nonempty (v : option string) : option string :=
  if truthy v then v else None.

(** Interpolation [`${v}`] inside a template literal. *)
Definition interpolate (v : option string) : string :=
  match v with
  | Some s => s
  | None => "undefined"
  end.

(** [parseInt(expires_in || '3600')], with or without the radix [10]: the
    field holds an integer number of seconds when the provider sends it, on
    which both forms agree; [0] and [undefined] are falsy and select the one
    hour default. *)
Definition parse_expires_in (expires_in : option Z) : Z :=
  match expires_in with
  | Some n => if n =? 0 then 3600 else n
  | None => 3600
  end.

(** *** [Buffer.toString('hex')] *)

Definition hex_digit (n : N) : ascii :=
  match n with
  | 0%N => "0" | 1%N => "1" | 2%N => "2" | 3%N => "3"
  | 4%N => "4" | 5%N => "5" | 6%N => "6" | 7%N => "7"
  | 8%N => "8" | 9%N => "9" | 10%N => "a" | 11%N => "b"
  | 12%N => "c" | 13%N => "d" | 14%N => "e" | _ => "f"
  end%char.

Definition hex_value (c : ascii) : option N :=
  let n := N_of_ascii c in
  if (48 <=? n)%N && (n <=? 57)%N then Some (n - 48)%N
  else if (97 <=? n)%N && (n <=? 102)%N then Some (n - 87)%N
  else None.

Fixpoint toHex (bytes : list Byte.byte) : string :=
  match bytes with
  | [] => EmptyString
  | b :: rest =>
      let n := Byte.to_N b in
      String (hex_digit (n / 16)) (String (hex_digit (n mod 16)) (toHex rest))
  end.

(** Reading a hex string back, two digits per byte. *)
Fixpoint fromHex (fuel : nat) (s : string) : option (list Byte.byte) :=
  match fuel, s with
  | _, EmptyString => Some []
  | S fuel', String hi (String lo rest) =>
      match hex_value hi, hex_value lo, fromHex fuel' rest with
      | Some h, Some l, Some bs =>
          match Byte.of_N (h * 16 + l) with
          | Some b => Some (b :: bs)
          | None => None
          end
      | _, _, _ => None
      end
  | _, _ => None
  end.

(** ** HTTP vocabulary *)

Inductive Method := GET | POST | PUT | DELETE.

(** The JSON body of [POST /services/oauth2/token]. *)
Record TokenResponse := {
  access_token : option string;
  refresh_token : option string;
  instance_url : option string;
  expires_in : option Z;
}.

(** A response body: opaque text, or the token endpoint's JSON object. *)
Inductive Json :=
  | JText (text : string)
  | JToken (fields : TokenResponse).

(** Destructuring [const { access_token, ... } = response.data]. *)
Definition token_fields (data : Json) : TokenResponse :=
  match data with
  | JToken t => t
  | JText _ =>
      {| access_token := None; refresh_token := None;
         instance_url := None; expires_in := None |}
  end.

(** An outbound call to the provider's REST API made by [axios({...})]. *)
Record ApiRequest := {
  req_method : Method;
  req_url : string;
  req_data : option string;
  req_authorization : string;
}.

(** The configuration every API call is made with: the method, the URL, the
    body, and the header [Authorization: `Bearer ${accessToken}`]. *)
Definition bearer_request (method : Method) (url : string)
    (body : option string) (accessToken : option string) : ApiRequest :=
  {| req_method := method; req_url := url; req_data := body;
     req_authorization := "Bearer " +:+ interpolate accessToken |}.

(** The form posted to the token endpoint. *)
Inductive Grant :=
  | authorization_code (code : string)
  | refresh_token_grant (token : option string).

Inductive Level := log | warn | error.

(** What the process emits. *)
Inductive Event :=
  | Console (level : Level) (line : string)
  | ApiCall (request : ApiRequest)
  | TokenPost (grant : Grant).

Definition is_api_call (e : Event) : bool :=
  match e with ApiCall _ => true | _ => false end.

Definition is_token_post (e : Event) : bool :=
  match e with TokenPost _ => true | _ => false end.

(** What a server does with a request: it answers with a status and a body
    after some latency, or never answers (transport failure). *)
Inductive Outcome :=
  | Responded (status : Z) (data : Json)
  | NoResponse.

(** The outside world.  A server may answer differently each time: it sees
    the trace so far and the time of the request. *)
Record Env := {
  api_server : list Event → Z → ApiRequest → Z * Outcome;
  token_server : list Event → Z → Grant → Z * Outcome;
  entropy : nat → list Byte.byte;
  SF_CLIENT_ID : string;
  SF_REDIRECT_URI : string;
}.

(** ** Exceptions *)

(** [new Error(message)], or an [AxiosError]; [response] is absent when the
    request timed out or the transport failed. *)
Inductive Thrown :=
  | JsError (message : string)
  | AxiosError (response : option (Z * Json)).

(** [axios.isAxiosError(error) && error.response?.status === 401] *)
Definition is_unauthorized (e : Thrown) : bool :=
  match e with
  | AxiosError (Some (status, _)) => status =? 401
  | _ => false
  end.

Record AxiosResponse := {
  status : Z;
  data : Json;
}.

(** ** The state of the process and of its surroundings *)

(** [interface TokenData] of [services/tokenStore.ts]; the entries of the
    authorization route's [tokenStore] have the same shape.  The fields are
    typed [string] in the source but are copied unchecked from the provider's
    JSON, so each may be [undefined] at run time. *)
Record TokenData := {
  accessToken : option string;
  refreshToken : option string;
  instanceUrl : option string;
  expiresAt : Z;
}.

(** [interface TokenData] of the in-memory live route: a [timestamp] of the
    last write instead of an expiry. *)
Record StampedTokenData := {
  stampedAccessToken : option string;
  stampedRefreshToken : option string;
  stampedInstanceUrl : option string;
  stampedTimestamp : Z;
}.

(** An entry of the authorization route's [sessionStore], keyed by state. *)
Record Session := {
  userId : string;
  timestamp : Z;
}.

(** A key of the Redis instance: the serialized record (JSON text, which
    parses back to the record it was printed from), the [PX] lifetime it was
    written with, and the time of the write. *)
Record RedisEntry := {
  payload : TokenData;
  px : Z;
  writtenAt : Z;
}.

(** The Redis client: [redis.status === 'ready'] and the keys held by the
    server. *)
Record Redis := {
  ready : bool;
  entries : gmap string RedisEntry;
}.

(** The three module-level objects used as maps are finite maps from their
    own keys; times are integers of milliseconds. *)
Record World := {
  now : Z;
  trace : list Event;
  draws : nat;
  redis : Redis;
  liveTokenStore : gmap string StampedTokenData;
  sessionStore : gmap string Session;
  tokenStore : gmap string TokenData;
}.

Definition advance (ms : Z) (w : World) : World :=
  {| now := now w + ms; trace := trace w; draws := draws w; redis := redis w;
     liveTokenStore := liveTokenStore w; sessionStore := sessionStore w;
     tokenStore := tokenStore w |}.

Definition emit (e : Event) (w : World) : World :=
  {| now := now w; trace := trace w ++ [e]; draws := draws w; redis := redis w;
     liveTokenStore := liveTokenStore w; sessionStore := sessionStore w;
     tokenStore := tokenStore w |}.

Definition drawn (w : World) : World :=
  {| now := now w; trace := trace w; draws := S (draws w); redis := redis w;
     liveTokenStore := liveTokenStore w; sessionStore := sessionStore w;
     tokenStore := tokenStore w |}.

Definition with_redis (r : Redis) (w : World) : World :=
  {| now := now w; trace := trace w; draws := draws w; redis := r;
     liveTokenStore := liveTokenStore w; sessionStore := sessionStore w;
     tokenStore := tokenStore w |}.

Definition with_liveTokenStore (m : gmap string StampedTokenData) (w : World) : World :=
  {| now := now w; trace := trace w; draws := draws w; redis := redis w;
     liveTokenStore := m; sessionStore := sessionStore w;
     tokenStore := tokenStore w |}.

Definition with_sessionStore (m : gmap string Session) (w : World) : World :=
  {| now := now w; trace := trace w; draws := draws w; redis := redis w;
     liveTokenStore := liveTokenStore w; sessionStore := m;
     tokenStore := tokenStore w |}.

Definition with_tokenStore (m : gmap string TokenData) (w : World) : World :=
  {| now := now w; trace := trace w; draws := draws w; redis := redis w;
     liveTokenStore := liveTokenStore w; sessionStore := sessionStore w;
     tokenStore := m |}.

(** ** Computations *)

(** A computation ends normally with a value or abruptly with an exception;
    either way the world has moved on. *)
Inductive Completion (A : Type) :=
  | Normal (a : A)
  | Abrupt (e : Thrown).
Arguments Normal {A} a.
Arguments Abrupt {A} e.

Definition M (A : Type) : Type := World → Completion A * World.

#[global] Instance M_ret : MRet M := λ A a w, (Normal a, w).

#[global] Instance M_bind : MBind M := λ A B f m w,
  match m w with
  | (Normal a, w') => f a w'
  | (Abrupt e, w') => (Abrupt e, w')
  end.

Definition throw {A : Type} (e : Thrown) : M A := λ w, (Abrupt e, w).

(** [try { body } catch (err) { handler }] *)
Definition try_catch {A : Type} (body : M A) (handler : Thrown → M A) : M A :=
  λ w, match body w with
       | (Normal a, w') => (Normal a, w')
       | (Abrupt e, w') => handler e w'
       end.

Definition gets {A : Type} (f : World → A) : M A := λ w, (Normal (f w), w).

Definition modify (f : World → World) : M unit := λ w, (Normal tt, f w).

Definition Date_now : M Z := gets now.

Definition console (level : Level) (line : string) : M unit :=
  modify (emit (Console level line)).

(** ** axios *)

Definition timed_out (timeout : option Z) (latency : Z) : bool :=
  match timeout with
  | Some limit => limit <=? latency
  | None => false
  end.

(** How a request settles: the promise rejects without a response when the
    [timeout] elapses first or the transport fails, rejects with the response
    when the status is outside [200..299], and resolves otherwise. *)
Definition settle (timeout : option Z) (reply : Z * Outcome) : M AxiosResponse :=
  λ w,
    let '(latency, outcome) := reply in
    if timed_out timeout latency
    then (Abrupt (AxiosError None), advance (default 0 timeout) w)
    else match outcome with
         | NoResponse => (Abrupt (AxiosError None), advance latency w)
         | Responded st body =>
             if (200 <=? st) && (st <? 300)
             then (Normal {| status := st; data := body |}, advance latency w)
             else (Abrupt (AxiosError (Some (st, body))), advance latency w)
         end.

Definition axios (env : Env) (timeout : option Z) (request : ApiRequest)
  : M AxiosResponse :=
  λ w, settle timeout (api_server env (trace w) (now w) request)
              (emit (ApiCall request) w).

(** [axios.post('https://login.salesforce.com/services/oauth2/token', form)] *)
Definition axios_post_token (env : Env) (timeout : option Z) (grant : Grant)
  : M AxiosResponse :=
  λ w, settle timeout (token_server env (trace w) (now w) grant)
              (emit (TokenPost grant) w).

(** The request fails: no answer within the [timeout], no answer at all, or
    an answer whose status is not [2xx]. *)
Definition rejected (timeout : option Z) (reply : Z * Outcome) : bool :=
  timed_out timeout reply.1
  || match reply.2 with
     | NoResponse => true
     | Responded st _ => negb ((200 <=? st) && (st <? 300))
     end.

(** ** Redis commands *)

Definition alive (at_ : Z) (e : RedisEntry) : bool := at_ <? writtenAt e + px e.

(** [SET key value PX ttl]: the server refuses a lifetime that is not
    positive, and the client's promise rejects with the reply error. *)
Definition redis_set (key : string) (value : TokenData) (ttl : Z) : M unit :=
  λ w,
    if ttl <=? 0
    then (Abrupt (JsError "ERR invalid expire time in 'set' command"), w)
    else (Normal tt,
          with_redis
            {| ready := ready (redis w);
               entries := <[key := {| payload := value; px := ttl;
                                      writtenAt := now w |}]>
                            (entries (redis w)) |} w).

(** [GET key]: a key whose lifetime has run out is gone. *)
Definition redis_get (key : string) : M (option TokenData) :=
  gets (λ w, match entries (redis w) !! key with
             | Some e => if alive (now w) e then Some (payload e) else None
             | None => None
             end).

Definition redis_del (key : string) : M unit :=
  modify (λ w, with_redis {| ready := ready (redis w);
                             entries := delete key (entries (redis w)) |} w).

(** ** [backend/src/services/tokenStore.ts] *)

Module TokenStoreService.

Definition REDIS_PREFIX : string := "kublish:token".

Definition key (userId : string) : string := REDIS_PREFIX +:+ ":" +:+ userId.

Definition isRedisConnected : M bool := gets (λ w, ready (redis w)).

Definition setTokenData (userId : string) (token : TokenData) : M unit :=
  now ← Date_now;
  let ttl := expiresAt token - now in
  connected ← isRedisConnected;
  if connected : bool
  then redis_set (key userId) token ttl
  else console warn "Redis unavailable, token not persisted.".

Definition getTokenData (userId : string) : M (option TokenData) :=
  connected ← isRedisConnected;
  if connected : bool
  then redis_get (key userId)
  else mret None.

Definition clearTokenData (userId : string) : M unit :=
  connected ← isRedisConnected;
  if connected : bool
  then redis_del (key userId)
  else mret tt.

End TokenStoreService.

(** ** The live route over the token store service *)

Module SalesforceLive.
Import TokenStoreService.

Definition refreshAccessToken (env : Env) (userId : string)
  : M (option TokenData) :=
  stored ← getTokenData userId;
  let missing : M (option TokenData) :=
    console error ("No refresh token found for user: " +:+ userId);;
    mret None in
  match stored with
  | None => missing
  | Some tokenData =>
      if truthy (refreshToken tokenData)
      then
        try_catch
          (console log ("Refreshing access token for user: " +:+ userId);;
           response ← axios_post_token env (Some 10000)
                        (refresh_token_grant (refreshToken tokenData));
           let fields := token_fields (data response) in
           now ← Date_now;
           let expiresAt :=
             now + parse_expires_in (expires_in fields) * 1000 in
           let updatedToken :=
             {| accessToken := access_token fields;
                refreshToken :=
                  js_or (refresh_token fields) (refreshToken tokenData);
                instanceUrl :=
                  js_or (instance_url fields) (instanceUrl tokenData);
                expiresAt := expiresAt |} in
           setTokenData userId updatedToken;;
           console log ("Access token refreshed for " +:+ userId);;
           mret (Some updatedToken))
          (λ err,
             console error ("Failed to refresh token for " +:+ userId
                            +:+ ":");;
             mret None)
      else missing
  end.

Definition makeSalesforceApiCall (env : Env) (userId endpoint : string)
    (method : Method) (body : option string) : M AxiosResponse :=
  stored ← getTokenData userId;
  match stored with
  | None => throw (JsError "User is not authenticated with Salesforce.")
  | Some tokenData =>
      now ← Date_now;
      tokenData ←
        (if expiresAt tokenData <? now + 30000
         then
           refreshed ← refreshAccessToken env userId;
           match refreshed with
           | None => throw (JsError "Unable to refresh token.")
           | Some tokenData => mret tokenData
           end
         else mret tokenData);
      let url := interpolate (instanceUrl tokenData) +:+ endpoint in
      axios env (Some 15000)
        (bearer_request method url body (accessToken tokenData))
  end.

End SalesforceLive.

(** The [updatedToken] a refresh builds from the stored record and the
    provider's fields, at time [at_]. *)
Definition refreshed_record (old : TokenData) (fields : TokenResponse)
    (at_ : Z) : TokenData :=
  {| accessToken := access_token fields;
     refreshToken := js_or (refresh_token fields) (refreshToken old);
     instanceUrl := js_or (instance_url fields) (instanceUrl old);
     expiresAt := at_ + parse_expires_in (expires_in fields) * 1000 |}.

(** ** The live route with its own in-memory token store *)

Module SalesforceLiveMemory.

Definition show_method (m : Method) : string :=
  match m with
  | GET => "GET" | POST => "POST" | PUT => "PUT" | DELETE => "DELETE"
  end.

(** [`${error.response?.status}`] *)
Definition show_status (e : Thrown) : string :=
  match e with
  | AxiosError (Some (st, _)) => pretty st
  | _ => "undefined"
  end.

Definition is_axios_error (e : Thrown) : bool :=
  match e with AxiosError _ => true | JsError _ => false end.

Definition refreshAccessToken (env : Env) (userId : string)
  : M (option StampedTokenData) :=
  stored ← gets (λ w, liveTokenStore w !! userId);
  let missing : M (option StampedTokenData) :=
    console error ("No refresh token found for user: " +:+ userId);;
    mret None in
  match stored with
  | None => missing
  | Some tokenData =>
      if truthy (stampedRefreshToken tokenData)
      then
        try_catch
          (console log ("Refreshing access token for user: " +:+ userId);;
           response ← axios_post_token env (Some 10000)
                        (refresh_token_grant (stampedRefreshToken tokenData));
           let fields := token_fields (data response) in
           now ← Date_now;
           let updatedTokenData :=
             {| stampedAccessToken := access_token fields;
                stampedRefreshToken :=
                  js_or (refresh_token fields)
                        (stampedRefreshToken tokenData);
                stampedInstanceUrl :=
                  js_or (instance_url fields) (stampedInstanceUrl tokenData);
                stampedTimestamp := now |} in
           modify (λ w, with_liveTokenStore
                          (<[userId := updatedTokenData]> (liveTokenStore w))
                          w);;
           console log ("Access token refreshed successfully for user: "
                        +:+ userId);;
           mret (Some updatedTokenData))
          (λ err,
             console error ("Failed to refresh access token for user "
                            +:+ userId +:+ ":");;
             (if is_axios_error err
              then console error ("Status: " +:+ show_status err
                                  +:+ ", Error:")
              else mret tt);;
             mret None)
      else missing
  end.

Definition makeRequest (env : Env) (endpoint : string) (method : Method)
    (body : option string) (accessToken instanceUrl : option string)
  : M AxiosResponse :=
  let url := interpolate instanceUrl +:+ endpoint in
  console log ("Making Salesforce API call: " +:+ show_method method
               +:+ " " +:+ url);;
  axios env (Some 15000) (bearer_request method url body accessToken).

Definition makeSalesforceApiCall (env : Env) (userId endpoint : string)
    (method : Method) (body : option string) : M AxiosResponse :=
  stored ← gets (λ w, liveTokenStore w !! userId);
  match stored with
  | None =>
      throw (JsError "No authentication data found. Please authenticate first.")
  | Some tokenData =>
      try_catch
        (makeRequest env endpoint method body
           (stampedAccessToken tokenData) (stampedInstanceUrl tokenData))
        (λ err,
           if is_unauthorized err
           then
             console log ("Access token expired, attempting refresh for user: "
                          +:+ userId);;
             refreshedTokenData ← refreshAccessToken env userId;
             match refreshedTokenData with
             | None =>
                 throw (JsError
                   "Failed to refresh access token. Please re-authenticate.")
             | Some refreshed =>
                 try_catch
                   (makeRequest env endpoint method body
                      (stampedAccessToken refreshed)
                      (stampedInstanceUrl refreshed))
                   (λ retryError,
                      console error "API call failed even after token refresh:";;
                      throw retryError)
             end
           else throw err)
  end.

(** The exported helpers. *)
Definition setTokenData (userId : string) (tokenData : StampedTokenData)
  : M unit :=
  modify (λ w, with_liveTokenStore (<[userId := tokenData]> (liveTokenStore w)) w);;
  console log ("Token data stored for user: " +:+ userId).

Definition getTokenData (userId : string) : M (option StampedTokenData) :=
  gets (λ w, liveTokenStore w !! userId).

Definition clearTokenData (userId : string) : M unit :=
  modify (λ w, with_liveTokenStore (delete userId (liveTokenStore w)) w);;
  console log ("Token data cleared for user: " +:+ userId).

End SalesforceLiveMemory.

(** ** [backend/src/routes/salesforceAuth.ts] *)

Module SalesforceAuth.

(** What a handler sends back. *)
Inductive ReplyBody :=
  | ErrorBody (error : string)
  | ConnectedBody (message : string) (instanceUrl : option string)
      (connectedAt : Z)
  | NotConnectedBody (message : string)
  | StatusBody (connected : bool) (instanceUrl : option string)
      (connectedAt : Z) (expired : bool)
  | MessageBody (message : string).

Inductive Reply :=
  | Redirect (location : string) (searchParams : list (string * string))
  | JsonReply (code : Z) (body : ReplyBody).

(** [req.query] of [GET /callback]. *)
Record CallbackQuery := {
  q_code : option string;
  q_state : option string;
  q_error : option string;
}.

Definition OAUTH_EXPIRY_BUFFER : Z := 5 * 60 * 1000.

Definition tenMinutes : Z := 10 * 60 * 1000.

(** The sweep, run by [setInterval] every five minutes: every key whose
    entry is older than ten minutes is deleted. *)
Definition cleanupExpiredSessions : M unit :=
  now ← Date_now;
  modify (λ w, with_sessionStore
                 (filter (λ entry : string * Session,
                            ¬ (now - timestamp entry.2 > tenMinutes))
                         (sessionStore w)) w).

(** The [size] bytes of the [k]-th draw from the random source. *)
Definition block (env : Env) (k size : nat) : list Byte.byte :=
  take size (entropy env k ++ replicate size Byte.x00).

(** [crypto.randomBytes(size)] *)
Definition randomBytes (env : Env) (size : nat) : M (list Byte.byte) :=
  λ w, (Normal (block env (draws w) size), drawn w).

(** The provider's authorize URL carrying [state]. *)
Definition authorizeUrl (env : Env) (state : string) : Reply :=
  Redirect "https://login.salesforce.com/services/oauth2/authorize"
    [("response_type", "code");
     ("client_id", SF_CLIENT_ID env);
     ("redirect_uri", SF_REDIRECT_URI env);
     ("scope", "api refresh_token");
     ("state", state)].

(** The reply to a callback whose state is not in the session store. *)
Definition InvalidState : Reply :=
  JsonReply 400 (ErrorBody "Invalid or expired state").

(** The query of a provider redirect carrying [code] and [state]. *)
Definition returning (code state : string) : CallbackQuery :=
  {| q_code := Some code; q_state := Some state; q_error := None |}.

Definition initiate (env : Env) (q_userId : option string) : M Reply :=
  match nonempty q_userId with
  | None => mret (JsonReply 400 (ErrorBody "Missing userId"))
  | Some userId =>
      bytes ← randomBytes env 16;
      let state := toHex bytes in
      now ← Date_now;
      modify (λ w, with_sessionStore
                     (<[state := {| userId := userId; timestamp := now |}]>
                        (sessionStore w)) w);;
      mret (authorizeUrl env state)
  end.

(** The first half of [GET /callback]: the checks on the query and the
    single consumption of the session.  It hands the bound user and the
    code to the exchange, or replies itself. *)
Definition completeCallback (query : CallbackQuery)
  : M (Reply + string * string) :=
  if truthy (q_error query)
  then mret (inl (JsonReply 400 (ErrorBody "Salesforce OAuth error")))
  else
    match nonempty (q_code query), nonempty (q_state query) with
    | Some code, Some state =>
        session ← gets (λ w, sessionStore w !! state);
        match session with
        | None => mret (inl InvalidState)
        | Some session =>
            modify (λ w, with_sessionStore (delete state (sessionStore w)) w);;
            mret (inr (userId session, code))
        end
    | _, _ => mret (inl (JsonReply 400 (ErrorBody "Missing code or state")))
    end.

(** [status || 500] *)
Definition status_or_500 (e : Thrown) : Z :=
  match e with
  | AxiosError (Some (st, _)) => if st =? 0 then 500 else st
  | _ => 500
  end.

(** The second half of [GET /callback]: the code is exchanged and the
    record written. *)
Definition exchange (env : Env) (userId code : string) : M Reply :=
  try_catch
    (tokenRes ← axios_post_token env None (authorization_code code);
     let fields := token_fields (data tokenRes) in
     if truthy (access_token fields) && truthy (instance_url fields)
     then
       now ← Date_now;
       let expiresAt :=
         now + parse_expires_in (expires_in fields) * 1000
         - OAUTH_EXPIRY_BUFFER in
       modify (λ w, with_tokenStore
                      (<[userId := {| accessToken := access_token fields;
                                      refreshToken := refresh_token fields;
                                      instanceUrl := instance_url fields;
                                      expiresAt := expiresAt |}]>
                         (tokenStore w)) w);;
       connectedAt ← Date_now;
       mret (JsonReply 200 (ConnectedBody "Salesforce connected successfully"
                         (instance_url fields) connectedAt))
     else throw (JsError "Invalid token response"))
    (λ err,
       match err with
       | AxiosError _ =>
           mret (JsonReply (status_or_500 err) (ErrorBody "Token exchange failed"))
       | JsError _ => mret (JsonReply 500 (ErrorBody "Callback error"))
       end).

Definition callback (env : Env) (query : CallbackQuery) : M Reply :=
  checked ← completeCallback query;
  match checked with
  | inl reply => mret reply
  | inr (userId, code) => exchange env userId code
  end.

Definition connectionStatus (q_userId : option string) : M Reply :=
  match nonempty q_userId with
  | None => mret (JsonReply 400 (ErrorBody "Missing userId"))
  | Some userId =>
      tokens ← gets (λ w, tokenStore w !! userId);
      match tokens with
      | None =>
          mret (JsonReply 200 (NotConnectedBody "No Salesforce connection found"))
      | Some tokens =>
          now ← Date_now;
          let isExpired := bool_decide (now > expiresAt tokens) in
          mret (JsonReply 200 (StatusBody (negb isExpired) (instanceUrl tokens)
                            (expiresAt tokens - 3600000) isExpired))
      end
  end.

Definition disconnect (q_userId : option string) : M Reply :=
  match nonempty q_userId with
  | None => mret (JsonReply 400 (ErrorBody "Missing userId"))
  | Some user =>
      modify (λ w, with_tokenStore (delete user (tokenStore w)) w);;
      modify (λ w, with_sessionStore
                     (filter (λ entry : string * Session,
                                userId entry.2 ≠ user)
                             (sessionStore w)) w);;
      mret (JsonReply 200 (MessageBody "Disconnected from Salesforce"))
  end.

End SalesforceAuth.

(** ** Observations *)

(** The number of API requests, and of requests to the token endpoint, in a
    trace. *)
Definition api_calls (tr : list Event) : nat := length (filter is_api_call tr).

Definition token_posts (tr : list Event) : nat :=
  length (filter is_token_post tr).

(** The token records of [w'] are those of [w], in every store. *)
Definition same_tokens (w w' : World) : Prop :=
  redis w' = redis w ∧ tokenStore w' = tokenStore w
  ∧ liveTokenStore w' = liveTokenStore w.

(** ** Concrete surroundings

    Small worlds and providers on which the operations can be run. *)

Module Fixtures.

(** A freshly started process at time [1000]; [up] says whether the Redis
    client is ready. *)
Definition blank (up : bool) : World :=
  {| now := 1000; trace := []; draws := 0%nat;
     redis := {| ready := up; entries := ∅ |};
     liveTokenStore := ∅; sessionStore := ∅; tokenStore := ∅ |}.

(** A provider that follows a script: the n-th API request is answered with
    the n-th status of [api] (then [200]), the n-th token request with the
    n-th outcome of [tokens] (then silence).  The random source yields a
    different block on every draw. *)
Definition scripted (api : list Z) (tokens : list Outcome) : Env :=
  {| api_server := λ tr _ _,
       (50, Responded (nth (api_calls tr) api 200) (JText "body"));
     token_server := λ tr _ _, (80, nth (token_posts tr) tokens NoResponse);
     entropy := λ k, [default Byte.x00 (Byte.of_nat k)];
     SF_CLIENT_ID := "client";
     SF_REDIRECT_URI := "https://app/callback" |}.

Definition granted (access : string) (refresh : option string)
    (seconds : option Z) : Outcome :=
  Responded 200 (JToken {| access_token := Some access;
                           refresh_token := refresh;
                           instance_url := Some "https://x";
                           expires_in := seconds |}).

Definition record1 : TokenData :=
  {| accessToken := Some "A1"; refreshToken := Some "R1";
     instanceUrl := Some "https://x"; expiresAt := 3301000 |}.

(** The same record, ten seconds from expiry at time [1000]. *)
Definition expiring1 : TokenData :=
  {| accessToken := Some "A1"; refreshToken := Some "R1";
     instanceUrl := Some "https://x"; expiresAt := 11000 |}.

Definition stamped1 : StampedTokenData :=
  {| stampedAccessToken := Some "A1"; stampedRefreshToken := Some "R1";
     stampedInstanceUrl := Some "https://x"; stampedTimestamp := 0 |}.

(** Redis is up and holds [record] for user [u1]. *)
Definition holding (record : TokenData) : World :=
  with_redis
    {| ready := true;
       entries := {[ TokenStoreService.key "u1" :=
                       {| payload := record; px := expiresAt record;
                          writtenAt := 0 |} ]} |}
    (blank true).

(** The in-memory live route holds [stamped1] for user [u1]. *)
Definition remembering : World :=
  with_liveTokenStore {[ "u1" := stamped1 ]} (blank true).

(** User [u1] is connected: the authorization route and Redis both hold
    [record1], and one authorization is pending under the all-zero state. *)
Definition connected : World :=
  with_sessionStore
    {[ "00000000000000000000000000000000"
         := {| userId := "u1"; timestamp := 1000 |} ]}
    (with_tokenStore {[ "u1" := record1 ]} (holding record1)).

End Fixtures.

(** ** The authorization route with sessions keyed by user

    The variant of the route whose [sessionStore] is keyed by [userId] and
    holds the state; its callback always works for ['default-user'].  Its two
    module-level stores are passed explicitly; the clock, the trace and the
    random source are those of the [World]. *)

Module SalesforceAuthByUser.
Import SalesforceAuth.

(** An entry of this route's [sessionStore]. *)
Record PendingSession := {
  state : string;
  timestamp : Z;
}.

(** This route's [sessionStore] and [tokenStore]. *)
Record Stores := {
  sessions : gmap string PendingSession;
  tokens : gmap string StampedTokenData;
}.

(** [req.query.userId as string || 'default-user'] *)
Definition userOf (q_userId : option string) : string :=
  default "default-user" (nonempty q_userId).

Definition oneHour : Z := 60 * 60 * 1000.

Definition cleanupExpiredSessions (stores : Stores) : M Stores :=
  now ← Date_now;
  mret {| sessions := filter (λ entry : string * PendingSession,
                                ¬ (now - timestamp entry.2 > tenMinutes))
                             (sessions stores);
          tokens := tokens stores |}.

(** [GET /initiate]; [href] is the serialization of the authorize URL, used
    for the console line only. *)
Definition initiate (href : string → list (string * string) → string)
    (env : Env) (q_userId : option string) (stores : Stores)
  : M (Reply * Stores) :=
  bytes ← randomBytes env 16;
  let state := toHex bytes in
  let userId := userOf q_userId in
  now ← Date_now;
  let stores' :=
    {| sessions := <[userId := {| state := state; timestamp := now |}]>
                     (sessions stores);
       tokens := tokens stores |} in
  let location := "https://login.salesforce.com/services/oauth2/authorize" in
  let searchParams :=
    [("response_type", "code");
     ("client_id", SF_CLIENT_ID env);
     ("redirect_uri", SF_REDIRECT_URI env);
     ("scope", "api refresh_token");
     ("state", state)] in
  console log ("Initiating Salesforce OAuth for user: " +:+ userId);;
  console log ("Redirecting to: " +:+ href location searchParams);;
  mret (Redirect location searchParams, stores').

(** [GET /callback] *)
Definition callback (env : Env) (query : CallbackQuery) (stores : Stores)
  : M (Reply * Stores) :=
  if truthy (q_error query)
  then
    console error "Salesforce OAuth error:";;
    mret (JsonReply 400 (ErrorBody "Salesforce authentication failed"), stores)
  else
    match nonempty (q_code query), nonempty (q_state query) with
    | Some code, Some given =>
        let userId := "default-user" in
        match sessions stores !! userId with
        | Some storedSession =>
            if String.eqb (state storedSession) given
            then
              let consumed :=
                {| sessions := delete userId (sessions stores);
                   tokens := tokens stores |} in
              try_catch
                (console log "Exchanging authorization code for tokens...";;
                 tokenResponse ← axios_post_token env (Some 10000)
                                   (authorization_code code);
                 let fields := token_fields (data tokenResponse) in
                 if truthy (access_token fields) && truthy (instance_url fields)
                 then
                   now ← Date_now;
                   let stored :=
                     {| sessions := sessions consumed;
                        tokens :=
                          <[userId := {| stampedAccessToken := access_token fields;
                                         stampedRefreshToken := refresh_token fields;
                                         stampedInstanceUrl := instance_url fields;
                                         stampedTimestamp := now |}]>
                            (tokens consumed) |} in
                   console log ("Salesforce authentication successful for user: "
                                +:+ userId);;
                   console log ("Instance URL: "
                                +:+ interpolate (instance_url fields));;
                   connectedAt ← Date_now;
                   mret (JsonReply 200
                           (ConnectedBody "Salesforce connected successfully"
                              (instance_url fields) connectedAt),
                         stored)
                 else throw (JsError "Invalid token response from Salesforce"))
                (λ err,
                   console error "Error in Salesforce callback:";;
                   match err with
                   | AxiosError _ =>
                       mret (JsonReply (status_or_500 err)
                               (ErrorBody "Failed to exchange authorization code"),
                             consumed)
                   | JsError _ =>
                       mret (JsonReply 500 (ErrorBody "Internal server error"),
                             consumed)
                   end)
            else
              console error "Invalid state parameter";;
              mret (JsonReply 400 (ErrorBody "Invalid state parameter"), stores)
        | None =>
            console error "Invalid state parameter";;
            mret (JsonReply 400 (ErrorBody "Invalid state parameter"), stores)
        end
    | _, _ =>
        mret (JsonReply 400 (ErrorBody "Missing required parameters"), stores)
    end.

(** [GET /status] *)
Definition connectionStatus (q_userId : option string) (stores : Stores)
  : M Reply :=
  match tokens stores !! userOf q_userId with
  | None => mret (JsonReply 200 (NotConnectedBody "No Salesforce connection found"))
  | Some found =>
      now ← Date_now;
      let isExpired := bool_decide (now - stampedTimestamp found > oneHour) in
      mret (JsonReply 200 (StatusBody (negb isExpired) (stampedInstanceUrl found)
                             (stampedTimestamp found) isExpired))
  end.

(** [POST /disconnect] *)
Definition disconnect (q_userId : option string) (stores : Stores)
  : M (Reply * Stores) :=
  let userId := userOf q_userId in
  let stores' := {| sessions := delete userId (sessions stores);
                    tokens := delete userId (tokens stores) |} in
  console log ("Salesforce disconnected for user: " +:+ userId);;
  mret (JsonReply 200 (MessageBody "Salesforce disconnected successfully"),
        stores').

End SalesforceAuthByUser.

(** ** The routes of the live API

    [GET /me] and [GET /org] read the provider's JSON answers.  A body is
    opaque here, so the two readings the handlers make of it are handed to
    them: [userinfo] gives the properties of [response.data] that [/me]
    looks at; [records] gives [response.data.records] when it is defined,
    and then its first element when that is truthy. *)

Module ProviderData.

(** The properties of a user-info or User-sobject answer. *)
Record UserInfo := {
  user_id : option string;
  Id : option string;
  name : option string;
  display_name : option string;
  first_name : option string;
  last_name : option string;
  email : option string;
  Email : option string;
  preferred_username : option string;
  Username : option string;
  organization_id : option string;
  CompanyName : option string;
  profile : option string;
  Profile_Name : option string;
  is_active : option bool;
  IsActive : option bool;
  last_modified_date : option string;
  LastLoginDate : option string;
  timezone : option string;
  TimeZoneSidKey : option string;
  locale : option string;
  LocaleSidKey : option string;
  language : option string;
  LanguageLocaleKey : option string;
}.

(** A record of the [Organization] query. *)
Record Organization := {
  org_Id : option string;
  org_Name : option string;
  OrganizationType : option string;
  IsSandbox : option bool;
  InstanceName : option string;
  NamespacePrefix : option string;
}.

(** The [user] object of a [/me] answer. *)
Record UserView := {
  view_id : option string;
  view_name : string;
  view_email : option string;
  view_username : option string;
  view_organization : option string;
  view_profile : option string;
  view_isActive : bool;
  view_lastLoginDate : option string;
  view_timezone : option string;
  view_locale : option string;
  view_language : option string;
}.

(** What the handlers of the live routes send back. *)
Inductive LiveReply :=
  | Failure (code : Z) (error : string)
  | Me (user : UserView) (instanceUrl : option string) (retrievedAt : Z)
  | Org (organization : Organization) (instanceUrl : option string)
      (retrievedAt : Z).

(** [value !== false] *)
Definition not_false (value : option bool) : bool :=
  match value with
  | Some false => false
  | _ => true
  end.

Definition org_query : string :=
  "/services/data/v58.0/query/?q=SELECT+Id,Name,OrganizationType,IsSandbox,InstanceName,NamespacePrefix+FROM+Organization+LIMIT+1".

End ProviderData.

(** *** Over the token store service *)

Module SalesforceLiveRoutes.
Import TokenStoreService SalesforceLive ProviderData.

(** [GET /me] *)
Definition me (userinfo : Json → UserInfo) (env : Env)
    (q_userId : option string) : M LiveReply :=
  match nonempty q_userId with
  | None => mret (Failure 400 "Missing userId")
  | Some userId =>
      try_catch
        (userResp ← makeSalesforceApiCall env userId "/services/oauth2/userinfo"
                      GET None;
         let userData := userinfo (data userResp) in
         let user :=
           {| view_id := user_id userData;
              view_name :=
                match nonempty (name userData) with
                | Some given => given
                | None => interpolate (first_name userData) +:+ " "
                          +:+ interpolate (last_name userData)
                end;
              view_email := email userData;
              view_username := preferred_username userData;
              view_organization := organization_id userData;
              view_profile := None;
              view_isActive := not_false (is_active userData);
              view_lastLoginDate := last_modified_date userData;
              view_timezone := timezone userData;
              view_locale := locale userData;
              view_language := language userData |} in
         stored ← getTokenData userId;
         retrievedAt ← Date_now;
         mret (Me user (stored ≫= instanceUrl) retrievedAt))
        (λ err,
           console error "/me error:";;
           mret (Failure 500 "Failed to fetch user info"))
  end.

(** [GET /org] *)
Definition org (records : Json → option (option Organization)) (env : Env)
    (q_userId : option string) : M LiveReply :=
  match nonempty q_userId with
  | None => mret (Failure 400 "Missing userId")
  | Some userId =>
      try_catch
        (orgResp ← makeSalesforceApiCall env userId org_query GET None;
         match records (data orgResp) with
         | Some (Some found) =>
             stored ← getTokenData userId;
             retrievedAt ← Date_now;
             mret (Org found (stored ≫= instanceUrl) retrievedAt)
         | _ => mret (Failure 404 "Organization not found")
         end)
        (λ err,
           console error "/org error:";;
           mret (Failure 500 "Failed to fetch org info"))
  end.

End SalesforceLiveRoutes.

(** *** Over the in-memory token store *)

Module SalesforceLiveMemoryRoutes.
Import SalesforceLiveMemory ProviderData.

(** [req.query.userId as string || 'default-user'] *)
Definition userOf (q_userId : option string) : string :=
  default "default-user" (nonempty q_userId).

(** The [catch] of both handlers: an [AxiosError] is answered with the
    provider's status (or [500]), anything else with [500]. *)
Definition fail (line failed : string) (err : Thrown) : M LiveReply :=
  console error line;;
  match err with
  | AxiosError _ => mret (Failure (SalesforceAuth.status_or_500 err) failed)
  | JsError _ => mret (Failure 500 "Internal server error")
  end.

(** The second half of [GET /me]: the answer built from the response that
    was obtained. *)
Definition respond (userinfo : Json → UserInfo) (userId : string)
    (userResponse : AxiosResponse) : M LiveReply :=
  let userData := userinfo (data userResponse) in
  console log ("Successfully retrieved user info for: "
               +:+ interpolate (js_or (name userData)
                                  (display_name userData)));;
  let user :=
    {| view_id := js_or (user_id userData) (Id userData);
       view_name :=
         match nonempty (js_or (name userData) (display_name userData)) with
         | Some given => given
         | None => interpolate (first_name userData) +:+ " "
                   +:+ interpolate (last_name userData)
         end;
       view_email := js_or (email userData) (Email userData);
       view_username :=
         js_or (preferred_username userData) (Username userData);
       view_organization :=
         js_or (organization_id userData) (CompanyName userData);
       view_profile := js_or (profile userData) (Profile_Name userData);
       view_isActive :=
         not_false (is_active userData) && not_false (IsActive userData);
       view_lastLoginDate :=
         js_or (last_modified_date userData) (LastLoginDate userData);
       view_timezone := js_or (timezone userData) (TimeZoneSidKey userData);
       view_locale := js_or (locale userData) (LocaleSidKey userData);
       view_language :=
         js_or (language userData) (LanguageLocaleKey userData) |} in
  stored ← gets (λ w, liveTokenStore w !! userId);
  retrievedAt ← Date_now;
  mret (Me user (stored ≫= stampedInstanceUrl) retrievedAt).

(** [GET /me]: the user-info endpoint first; if that call fails, the
    user-info endpoint once more for the user's id and then the User
    sobject; if that fails too, the first error. *)
Definition me (userinfo : Json → UserInfo) (env : Env)
    (q_userId : option string) : M LiveReply :=
  try_catch
    (let userId := userOf q_userId in
     console log ("Fetching user info for: " +:+ userId);;
     userResponse ←
       try_catch
         (makeSalesforceApiCall env userId "/services/oauth2/userinfo" GET None)
         (λ userinfoError,
            console log "Userinfo endpoint failed, trying User sobject...";;
            try_catch
              (tokenValidation ←
                 makeSalesforceApiCall env userId "/services/oauth2/userinfo"
                   GET None;
               let salesforceUserId :=
                 user_id (userinfo (data tokenValidation)) in
               makeSalesforceApiCall env userId
                 ("/services/data/v58.0/sobjects/User/"
                  +:+ interpolate salesforceUserId) GET None)
              (λ fallbackError, throw userinfoError));
     respond userinfo userId userResponse)
    (fail "Error fetching Salesforce user info:"
          "Failed to fetch user information").

(** [GET /org] *)
Definition org (records : Json → option (option Organization)) (env : Env)
    (q_userId : option string) : M LiveReply :=
  try_catch
    (let userId := userOf q_userId in
     console log ("Fetching organization info for user: " +:+ userId);;
     orgResponse ← makeSalesforceApiCall env userId org_query GET None;
     match records (data orgResponse) with
     | None =>
         throw (JsError "Cannot read properties of undefined (reading '0')")
     | Some None => mret (Failure 404 "Organization not found")
     | Some (Some orgData) =>
         console log ("Successfully retrieved org info: "
                      +:+ interpolate (org_Name orgData));;
         stored ← gets (λ w, liveTokenStore w !! userId);
         retrievedAt ← Date_now;
         mret (Org orgData (stored ≫= stampedInstanceUrl) retrievedAt)
     end)
    (fail "Error fetching Salesforce org info:"
          "Failed to fetch organization information").

End SalesforceLiveMemoryRoutes.

(** ** More surroundings *)

(** The Redis client becomes ready, or stops being so; the server keeps its
    keys. *)
Definition set_ready (up : bool) (w : World) : World :=
  with_redis {| ready := up; entries := entries (redis w) |} w.

(** * Facts *)

(** ** Running computations *)

Lemma run_bind {A B : Type} (m : M A) (f : A → M B) (w : World) :
  (m ≫= f) w = match m w with
               | (Normal a, w') => f a w'
               | (Abrupt e, w') => (Abrupt e, w')
               end.
Proof. reflexivity. Qed.

Lemma run_ret {A : Type} (a : A) (w : World) : (mret a : M A) w = (Normal a, w).
Proof. reflexivity. Qed.

(** Unfolding the plumbing of a computation, leaving the operations on the
    world in place. *)
Ltac run :=
  cbv [try_catch mbind M_bind mret M_ret console modify Date_now gets throw
       axios_post_token axios].

(** ** The token store service *)

Section TokenStoreFacts.
Import TokenStoreService.

Lemma key_inj (u v : string) : key u = key v → u = v.
Proof. unfold key, REDIS_PREFIX. intros H. by simplify_eq/=. Qed.

Lemma getTokenData_world (user : string) (w : World) :
  (getTokenData user w).2 = w.
Proof.
  unfold getTokenData, isRedisConnected, redis_get, gets.
  rewrite run_bind. simpl. by destruct (ready (redis w)).
Qed.

Lemma getTokenData_down (user : string) (w : World) :
  ready (redis w) = false → getTokenData user w = (Normal None, w).
Proof.
  intros Hdown. unfold getTokenData, isRedisConnected, gets.
  rewrite run_bind. simpl. by rewrite Hdown.
Qed.

Lemma getTokenData_up (user : string) (w : World) :
  ready (redis w) = true →
  getTokenData user w =
    (Normal (match entries (redis w) !! key user with
             | Some e => if alive (now w) e then Some (payload e) else None
             | None => None
             end), w).
Proof.
  intros Hup. unfold getTokenData, isRedisConnected, gets.
  rewrite run_bind. simpl. by rewrite Hup.
Qed.

Lemma setTokenData_down (user : string) (record : TokenData) (w : World) :
  ready (redis w) = false →
  setTokenData user record w =
    (Normal tt, emit (Console warn "Redis unavailable, token not persisted.") w).
Proof.
  intros Hdown. unfold setTokenData, isRedisConnected, Date_now, gets.
  rewrite !run_bind. simpl. by rewrite Hdown.
Qed.

Lemma setTokenData_up (user : string) (record : TokenData) (w : World) :
  ready (redis w) = true →
  setTokenData user record w = redis_set (key user) record (expiresAt record - now w) w.
Proof.
  intros Hup. unfold setTokenData, isRedisConnected, Date_now, gets.
  rewrite !run_bind. simpl. by rewrite Hup.
Qed.

End TokenStoreFacts.

Section TokenStoreClaims.
Import TokenStoreService Fixtures.

(** The write lands under the user's key with the lifetime
    [expiresAt - now], when Redis is ready and the record not yet expired. *)
Lemma setTokenData_lands (user : string) (record : TokenData) (w : World) :
  ready (redis w) = true → expiresAt record > now w →
  ∃ w', setTokenData user record w = (Normal tt, w')
        ∧ now w' = now w ∧ trace w' = trace w
        ∧ ready (redis w') = true
        ∧ entries (redis w') !! key user
          = Some {| payload := record; px := expiresAt record - now w;
                    writtenAt := now w |}.
Proof.
  intros Hup Hlive. rewrite setTokenData_up by done. unfold redis_set.
  destruct (Z.leb_spec (expiresAt record - now w) 0) as [Hle|_]; [lia|].
  eexists. split; [done|]. simpl. rewrite Hup.
  repeat split. by rewrite lookup_insert_eq.
Qed.

(** C8, counterexample: with the Redis client not ready, a record that
    expires fifty-five minutes from now is handed to [setTokenData], which
    returns normally; the [getTokenData] that follows finds nothing.  The
    only trace of the lost write is a console warning. *)
Lemma C8_write_dropped_when_redis_not_ready :
  expiresAt record1 > now (blank false)
  ∧ (setTokenData "u1" record1;; getTokenData "u1") (blank false)
    = (Normal None,
       emit (Console warn "Redis unavailable, token not persisted.")
            (blank false)).
Proof. split; [reflexivity|reflexivity]. Qed.

(** C8, amended: for every user and every record with
    [expiresAt > now], [setTokenData] returns normally; when the Redis
    client is ready the entry is written with lifetime [expiresAt - now]
    and [getTokenData] returns exactly that record from then until the
    expiry; when the client is not ready the write is dropped with a
    console warning only, and [getTokenData] returns nothing. *)
Theorem C8_set_then_get (user : string) (record : TokenData) (w : World) :
  expiresAt record > now w →
  ∃ w', setTokenData user record w = (Normal tt, w')
        ∧ if ready (redis w)
          then px <$> entries (redis w') !! key user
               = Some (expiresAt record - now w)
               ∧ ∀ d, 0 ≤ d < expiresAt record - now w →
                      getTokenData user (advance d w')
                      = (Normal (Some record), advance d w')
          else w' = emit (Console warn
                            "Redis unavailable, token not persisted.") w
               ∧ getTokenData user w' = (Normal None, w').
Proof.
  intros Hlive. destruct (ready (redis w)) eqn:Hready.
  - destruct (setTokenData_lands user record w Hready Hlive)
      as (w' & Hset & Hnow & _ & Hup & Hentry).
    exists w'. split; [done|]. split; [by rewrite Hentry|].
    intros d Hd. rewrite getTokenData_up by done. simpl.
    rewrite Hentry. unfold alive. simpl. rewrite Hnow.
    destruct (Z.ltb_spec (now w + d) (now w + (expiresAt record - now w)))
      as [_|Hge]; [done|lia].
  - eexists. split; [by apply setTokenData_down|]. split; [done|].
    by apply getTokenData_down.
Qed.

Lemma C8_set_then_get_witness :
  expiresAt record1 > now (blank true)
  ∧ ∃ w', setTokenData "u1" record1 (blank true) = (Normal tt, w')
          ∧ px <$> entries (redis w') !! key "u1" = Some 3300000
          ∧ ∀ d, 0 ≤ d < 3300000 →
                 getTokenData "u1" (advance d w')
                 = (Normal (Some record1), advance d w').
Proof.
  split; [reflexivity|].
  apply (C8_set_then_get "u1" record1 (blank true)). reflexivity.
Defined.

End TokenStoreClaims.

(** ** Hexadecimal state strings *)

Lemma hex_value_digit (b : Byte.byte) :
  hex_value (hex_digit (Byte.to_N b / 16)) = Some (Byte.to_N b / 16)%N
  ∧ hex_value (hex_digit (Byte.to_N b mod 16)) = Some (Byte.to_N b mod 16)%N
  ∧ Byte.of_N (Byte.to_N b / 16 * 16 + Byte.to_N b mod 16) = Some b.
Proof. destruct b; repeat split; reflexivity. Qed.

Lemma fromHex_toHex (bytes : list Byte.byte) :
  fromHex (length bytes) (toHex bytes) = Some bytes.
Proof.
  induction bytes as [|b rest IH]; [done|].
  destruct (hex_value_digit b) as (Hhi & Hlo & Hbyte).
  cbn [length toHex fromHex]. by rewrite Hhi, Hlo, IH, Hbyte.
Qed.

Lemma toHex_length (bytes : list Byte.byte) :
  String.length (toHex bytes) = (2 * length bytes)%nat.
Proof. induction bytes as [|b rest IH]; simpl; [done|]. rewrite IH. lia. Qed.

Lemma toHex_inj (a b : list Byte.byte) : toHex a = toHex b → a = b.
Proof.
  intros Heq.
  assert (length a = length b) as Hlen.
  { pose proof (toHex_length a) as Ha. pose proof (toHex_length b) as Hb.
    rewrite Heq in Ha. lia. }
  pose proof (fromHex_toHex a) as Ha. pose proof (fromHex_toHex b) as Hb.
  rewrite Heq, Hlen in Ha. congruence.
Qed.

Lemma block_length (env : Env) (k size : nat) :
  length (SalesforceAuth.block env k size) = size.
Proof.
  unfold SalesforceAuth.block. rewrite length_take, length_app, length_replicate. lia.
Qed.

Lemma state_nonempty (env : Env) (k : nat) :
  toHex (SalesforceAuth.block env k 16) ≠ "".
Proof.
  intros Hempty. pose proof (toHex_length (SalesforceAuth.block env k 16)) as Hlen.
  rewrite Hempty, block_length in Hlen. simpl in Hlen. lia.
Qed.

Lemma nonempty_Some (s : string) : s ≠ "" → nonempty (Some s) = Some s.
Proof.
  intros Hs. unfold nonempty, truthy.
  by destruct (String.eqb_spec s "").
Qed.

Lemma truthy_Some (s : string) : s ≠ "" → truthy (Some s) = true.
Proof. intros Hs. unfold truthy. by destruct (String.eqb_spec s ""). Qed.

(** ** The authorization sessions *)

Section SessionFacts.
Import SalesforceAuth.

(** What [GET /initiate] does for a present user: one draw from the random
    source, one entry written under the drawn state. *)
Lemma initiate_run (env : Env) (user : string) (w : World) :
  user ≠ "" →
  initiate env (Some user) w
  = (Normal (authorizeUrl env (toHex (block env (draws w) 16))),
     with_sessionStore
       (<[toHex (block env (draws w) 16) :=
            {| userId := user; timestamp := now w |}]> (sessionStore w))
       (drawn w)).
Proof. intros Hu. unfold initiate. by rewrite nonempty_Some. Qed.

(** A callback whose state is a key of the session store consumes the
    entry and hands over the user bound to it, whatever the entry's age. *)
Lemma completeCallback_present (code state : string) (s : Session) (w : World) :
  code ≠ "" → state ≠ "" → sessionStore w !! state = Some s →
  completeCallback (returning code state) w
  = (Normal (inr (userId s, code)),
     with_sessionStore (delete state (sessionStore w)) w).
Proof.
  intros Hc Hs Hlook. unfold completeCallback, returning. simpl.
  rewrite !nonempty_Some by done. unfold gets. rewrite run_bind.
  by rewrite Hlook.
Qed.

(** A callback whose state is not a key of the session store is refused,
    and nothing changes. *)
Lemma completeCallback_absent (code state : string) (w : World) :
  code ≠ "" → state ≠ "" → sessionStore w !! state = None →
  completeCallback (returning code state) w = (Normal (inl InvalidState), w).
Proof.
  intros Hc Hs Hlook. unfold completeCallback, returning. simpl.
  rewrite !nonempty_Some by done. unfold gets. rewrite run_bind.
  by rewrite Hlook.
Qed.

Lemma cleanupExpiredSessions_run (w : World) :
  cleanupExpiredSessions w
  = (Normal tt,
     with_sessionStore
       (filter (λ entry : string * Session,
                  ¬ (now w - timestamp entry.2 > tenMinutes))
               (sessionStore w)) w).
Proof. reflexivity. Qed.


End SessionFacts.

Section SessionClaims.
Import SalesforceAuth Fixtures.

(** C3: two [initiate] calls for the same user, whose draws from the random
    source differ, answer with two distinct states; both entries are in the
    session store afterwards, each bound to the user, and each state is
    completed by its own callback whichever of the two comes first.  (A
    handler runs without interruption up to its first [await], and
    [initiate] has none: two concurrent requests are two calls in some
    order.) *)
Theorem C3_two_flows_do_not_clobber
    (env : Env) (w : World) (user code1 code2 : string) :
  user ≠ "" → code1 ≠ "" → code2 ≠ "" →
  block env (draws w) 16 ≠ block env (S (draws w)) 16 →
  ∃ S1 S2 w1 w2,
    S1 ≠ S2
    ∧ initiate env (Some user) w = (Normal (authorizeUrl env S1), w1)
    ∧ initiate env (Some user) w1 = (Normal (authorizeUrl env S2), w2)
    ∧ sessionStore w2 !! S1 = Some {| userId := user; timestamp := now w |}
    ∧ sessionStore w2 !! S2 = Some {| userId := user; timestamp := now w1 |}
    ∧ (∃ w3 w4,
         completeCallback (returning code1 S1) w2
         = (Normal (inr (user, code1)), w3)
         ∧ completeCallback (returning code2 S2) w3
           = (Normal (inr (user, code2)), w4))
    ∧ (∃ w3 w4,
         completeCallback (returning code2 S2) w2
         = (Normal (inr (user, code2)), w3)
         ∧ completeCallback (returning code1 S1) w3
           = (Normal (inr (user, code1)), w4)).
Proof.
  intros Hu Hc1 Hc2 Hdraw.
  set (S1 := toHex (block env (draws w) 16)).
  set (S2 := toHex (block env (S (draws w)) 16)).
  assert (S1 ≠ S2) as Hne by (intros Heq; by apply Hdraw, toHex_inj).
  assert (S1 ≠ "") as Hn1 by apply state_nonempty.
  assert (S2 ≠ "") as Hn2 by apply state_nonempty.
  eexists S1, S2, _, _. split; [done|].
  split; [by apply initiate_run|].
  split; [by rewrite initiate_run|].
  simpl. fold S1 S2.
  assert (∀ m : gmap string Session,
            <[S2 := {| userId := user; timestamp := now w |}]>
              (<[S1 := {| userId := user; timestamp := now w |}]> m) !! S1
            = Some {| userId := user; timestamp := now w |}) as Hfirst.
  { intros m. rewrite lookup_insert_ne by done. by rewrite lookup_insert_eq. }
  split; [apply Hfirst|]. split; [by rewrite lookup_insert_eq|].
  split.
  - eexists _, _. split.
    + rewrite (completeCallback_present code1 S1
                 {| userId := user; timestamp := now w |}); [done..|].
      apply Hfirst.
    + rewrite (completeCallback_present code2 S2
                 {| userId := user; timestamp := now w |}); [done..|].
      simpl. rewrite lookup_delete_ne by done. by rewrite lookup_insert_eq.
  - eexists _, _. split.
    + rewrite (completeCallback_present code2 S2
                 {| userId := user; timestamp := now w |}); [done..|].
      simpl. by rewrite lookup_insert_eq.
    + rewrite (completeCallback_present code1 S1
                 {| userId := user; timestamp := now w |}); [done..|].
      simpl. rewrite lookup_delete_ne by done. apply Hfirst.
Qed.

Lemma C3_two_flows_do_not_clobber_witness :
  "u1" ≠ "" ∧ "abc" ≠ "" ∧ "def" ≠ ""
  ∧ block (scripted [] []) 0 16 ≠ block (scripted [] []) 1 16
  ∧ ∃ S1 S2 w1 w2,
      S1 ≠ S2
      ∧ initiate (scripted [] []) (Some "u1") (blank true)
        = (Normal (authorizeUrl (scripted [] []) S1), w1)
      ∧ initiate (scripted [] []) (Some "u1") w1
        = (Normal (authorizeUrl (scripted [] []) S2), w2)
      ∧ sessionStore w2 !! S1 = Some {| userId := "u1"; timestamp := 1000 |}
      ∧ sessionStore w2 !! S2
        = Some {| userId := "u1"; timestamp := now w1 |}
      ∧ (∃ w3 w4,
           completeCallback (returning "abc" S1) w2
           = (Normal (inr ("u1", "abc")), w3)
           ∧ completeCallback (returning "def" S2) w3
             = (Normal (inr ("u1", "def")), w4))
      ∧ (∃ w3 w4,
           completeCallback (returning "def" S2) w2
           = (Normal (inr ("u1", "def")), w3)
           ∧ completeCallback (returning "abc" S1) w3
             = (Normal (inr ("u1", "abc")), w4)).
Proof.
  split; [by vm_compute|]. split; [by vm_compute|]. split; [by vm_compute|].
  split; [by vm_compute|].
  apply (C3_two_flows_do_not_clobber (scripted [] []) (blank true)
           "u1" "abc" "def"); by vm_compute.
Defined.






End SessionClaims.

(** ** Requests *)

Lemma settle_rejected (timeout : option Z) (reply : Z * Outcome) (w : World) :
  rejected timeout reply = true →
  ∃ response w', settle timeout reply w = (Abrupt (AxiosError response), w')
                 ∧ trace w' = trace w ∧ redis w' = redis w
                 ∧ tokenStore w' = tokenStore w
                 ∧ liveTokenStore w' = liveTokenStore w
                 ∧ sessionStore w' = sessionStore w.
Proof.
  destruct reply as [latency outcome]. unfold rejected, settle. simpl.
  destruct (timed_out timeout latency); [by eexists _, _|].
  destruct outcome as [st body|]; simpl; [|by eexists _, _].
  destruct ((200 <=? st) && (st <? 300)); [done|by eexists _, _].
Qed.

(** A request moves the clock and leaves every store alone. *)
Lemma settle_stores (timeout : option Z) (reply : Z * Outcome) (w : World) :
  trace (settle timeout reply w).2 = trace w
  ∧ redis (settle timeout reply w).2 = redis w
  ∧ tokenStore (settle timeout reply w).2 = tokenStore w
  ∧ liveTokenStore (settle timeout reply w).2 = liveTokenStore w
  ∧ sessionStore (settle timeout reply w).2 = sessionStore w
  ∧ draws (settle timeout reply w).2 = draws w.
Proof.
  destruct reply as [latency outcome]. unfold settle.
  destruct (timed_out timeout latency); [done|].
  destruct outcome as [st body|]; [|done].
  by destruct ((200 <=? st) && (st <? 300)).
Qed.

(** ** Refreshing over the token store service *)

Section RefreshFacts.
Import TokenStoreService SalesforceLive Fixtures.

Lemma getTokenData_Some_ready (user : string) (w : World) (td : TokenData) :
  (getTokenData user w).1 = Normal (Some td) → ready (redis w) = true.
Proof.
  destruct (ready (redis w)) eqn:Hr; [done|].
  by rewrite getTokenData_down.
Qed.

Lemma getTokenData_total (user : string) (w : World) :
  ∃ stored, getTokenData user w = (Normal stored, w).
Proof.
  destruct (ready (redis w)) eqn:Hr.
  - eexists. by apply getTokenData_up.
  - eexists. by apply getTokenData_down.
Qed.

(** Without a stored refresh token no request is made. *)
Lemma refresh_missing (env : Env) (user : string) (w : World)
    (stored : option TokenData) :
  getTokenData user w = (Normal stored, w) →
  truthy (stored ≫= refreshToken) = false →
  refreshAccessToken env user w
  = (Normal None,
     emit (Console error ("No refresh token found for user: " +:+ user)) w).
Proof.
  intros Hget Hfalsy. unfold refreshAccessToken. rewrite run_bind, Hget.
  destruct stored as [td|]; [|done]. simpl in Hfalsy. by rewrite Hfalsy.
Qed.

(** With a stored refresh token exactly one request is made, and the
    record is written only when the request succeeds and the lifetime
    announced by the provider is positive. *)
Lemma refresh_attempt (env : Env) (user : string) (w : World) (old : TokenData) :
  getTokenData user w = (Normal (Some old), w) →
  truthy (refreshToken old) = true →
  refreshAccessToken env user w
  = let w0 := emit (Console log ("Refreshing access token for user: " +:+ user)) w in
    let failed :=
      Console error ("Failed to refresh token for " +:+ user +:+ ":") in
    match axios_post_token env (Some 10000)
            (refresh_token_grant (refreshToken old)) w0 with
    | (Abrupt _, w1) => (Normal None, emit failed w1)
    | (Normal response, w1) =>
        let updated := refreshed_record old (token_fields (data response)) (now w1) in
        if expiresAt updated - now w1 <=? 0
        then (Normal None, emit failed w1)
        else (Normal (Some updated),
              emit (Console log ("Access token refreshed for " +:+ user))
                (with_redis
                   {| ready := true;
                      entries := <[key user :=
                                     {| payload := updated;
                                        px := expiresAt updated - now w1;
                                        writtenAt := now w1 |}]>
                                   (entries (redis w1)) |} w1))
    end.
Proof.
  intros Hget Htruthy.
  assert (ready (redis w) = true) as Hready.
  { apply (getTokenData_Some_ready user w old). by rewrite Hget. }
  unfold refreshAccessToken. rewrite run_bind, Hget. cbn iota beta.
  rewrite Htruthy.
  run.
  set (w0 := emit _ w).
  pose proof (settle_stores (Some 10000)
                (token_server env (trace w0) (now w0)
                   (refresh_token_grant (refreshToken old)))
                (emit (TokenPost (refresh_token_grant (refreshToken old))) w0))
    as (_ & Hredis & _).
  destruct (settle _ _ _) as [[response|e] w1]; [|done].
  simpl in Hredis.
  rewrite setTokenData_up by (by rewrite Hredis).
  unfold redis_set. fold (refreshed_record old (token_fields (data response)) (now w1)).
  destruct (_ <=? 0); [done|]. simpl. by rewrite Hredis, Hready.
Qed.

(** A refresh that returns [null] has written nothing. *)
Lemma refresh_null_writes_nothing (env : Env) (user : string) (w : World) :
  (refreshAccessToken env user w).1 = Normal None →
  same_tokens w (refreshAccessToken env user w).2.
Proof.
  destruct (getTokenData_total user w) as [stored Hget].
  destruct (truthy (stored ≫= refreshToken)) eqn:Htruthy.
  - destruct stored as [old|]; [|done]. simpl in Htruthy.
    rewrite (refresh_attempt env user w old Hget Htruthy). cbv zeta.
    unfold axios_post_token.
    match goal with
    | |- context [settle ?t ?r ?w0] =>
        pose proof (settle_stores t r w0) as (_ & Hr & Ht & Hl & _)
    end.
    destruct (settle _ _ _) as [[response|e] w1]; simpl in *.
    + destruct (_ <=? 0); [done|]. simpl. discriminate.
    + done.
  - by rewrite (refresh_missing env user w stored Hget Htruthy).
Qed.

(** A refresh whose request the provider fails returns [null]. *)
Lemma refresh_rejected_null (env : Env) (user : string) (w : World) :
  (∀ token,
     rejected (Some 10000)
       (token_server env
          (trace w ++ [Console log ("Refreshing access token for user: "
                                    +:+ user)])
          (now w) (refresh_token_grant token)) = true) →
  (refreshAccessToken env user w).1 = Normal None.
Proof.
  intros Hfail.
  destruct (getTokenData_total user w) as [stored Hget].
  destruct (truthy (stored ≫= refreshToken)) eqn:Htruthy.
  - destruct stored as [old|]; [|done]. simpl in Htruthy.
    rewrite (refresh_attempt env user w old Hget Htruthy). cbv zeta.
    unfold axios_post_token.
    match goal with
    | |- context [settle ?t ?r ?w0] =>
        destruct (settle_rejected t r w0) as (resp & w1 & -> & _)
    end; [apply Hfail|done].
  - by rewrite (refresh_missing env user w stored Hget Htruthy).
Qed.

End RefreshFacts.

(** ** The code exchange *)

Section ExchangeFacts.
Import SalesforceAuth Fixtures.

(** An exchange whose request the provider fails answers with an error and
    writes nothing. *)
Lemma exchange_rejected (env : Env) (user code : string) (w : World) :
  rejected None (token_server env (trace w) (now w) (authorization_code code))
  = true →
  ∃ st w', exchange env user code w
           = (Normal (JsonReply st (ErrorBody "Token exchange failed")), w')
           ∧ same_tokens w w'.
Proof.
  intros Hfail. unfold exchange. run.
  match goal with
  | |- context [settle ?t ?r ?w0] =>
      destruct (settle_rejected t r w0) as (resp & w1 & -> & _ & Hr & Ht & Hl & _)
  end; [exact Hfail|].
  by eexists _, _.
Qed.

(** The record an exchange writes carries the safety buffer. *)
Lemma exchange_granted (env : Env) (user code : string) (w : World)
    (latency st : Z) (fields : TokenResponse) :
  token_server env (trace w) (now w) (authorization_code code)
  = (latency, Responded st (JToken fields)) →
  (200 <=? st) && (st <? 300) = true →
  truthy (access_token fields) && truthy (instance_url fields) = true →
  tokenStore (exchange env user code w).2 !! user
  = Some {| accessToken := access_token fields;
            refreshToken := refresh_token fields;
            instanceUrl := instance_url fields;
            expiresAt := now w + latency
                         + parse_expires_in (expires_in fields) * 1000
                         - OAUTH_EXPIRY_BUFFER |}.
Proof.
  intros Hreply Hok Htruthy. unfold exchange. run. rewrite Hreply.
  unfold settle. simpl. rewrite Hok. simpl. rewrite Htruthy. simpl.
  by rewrite lookup_insert_eq.
Qed.

End ExchangeFacts.

Section RefreshClaims.
Import TokenStoreService SalesforceLive SalesforceAuth Fixtures.

(** C6: a refresh whose request to the token endpoint fails (no answer in
    time, no answer, or a status outside [2xx]) returns [null] and leaves
    every token record as it was; so does, more generally, every refresh
    that returns [null].  A callback whose code exchange fails in the same
    way answers with the error and leaves every token record as it was. *)
Theorem C6_failure_writes_nothing
    (env : Env) (w : World) (user code state : string) (s : Session) :
  ((∀ token,
      rejected (Some 10000)
        (token_server env
           (trace w ++ [Console log ("Refreshing access token for user: "
                                     +:+ user)])
           (now w) (refresh_token_grant token)) = true) →
   (refreshAccessToken env user w).1 = Normal None
   ∧ same_tokens w (refreshAccessToken env user w).2)
  ∧ ((refreshAccessToken env user w).1 = Normal None →
     same_tokens w (refreshAccessToken env user w).2)
  ∧ (code ≠ "" → state ≠ "" → sessionStore w !! state = Some s →
     rejected None
       (token_server env (trace w) (now w) (authorization_code code)) = true →
     (∃ st, (callback env (returning code state) w).1
            = Normal (JsonReply st (ErrorBody "Token exchange failed")))
     ∧ same_tokens w (callback env (returning code state) w).2).
Proof.
  split; [|split].
  - intros Hfail. pose proof (refresh_rejected_null env user w Hfail) as Hnull.
    split; [done|]. by apply refresh_null_writes_nothing.
  - apply refresh_null_writes_nothing.
  - intros Hc Hs Hsession Hfail. unfold callback. rewrite run_bind.
    rewrite (completeCallback_present code state s w Hc Hs Hsession).
    cbn iota beta.
    destruct (exchange_rejected env (userId s) code
                (with_sessionStore (delete state (sessionStore w)) w) Hfail)
      as (st & w' & -> & Hsame).
    split; [by exists st|]. exact Hsame.
Qed.

Lemma C6_failure_writes_nothing_witness :
  let env := scripted [] [Responded 400 (JText "invalid_grant")] in
  let S1 := "00000000000000000000000000000000" in
  (∀ token,
     rejected (Some 10000)
       (token_server env
          (trace connected ++ [Console log ("Refreshing access token for user: "
                                            +:+ "u1")])
          (now connected) (refresh_token_grant token)) = true)
  ∧ "abc" ≠ "" ∧ S1 ≠ ""
  ∧ sessionStore connected !! S1 = Some {| userId := "u1"; timestamp := 1000 |}
  ∧ rejected None
      (token_server env (trace connected) (now connected)
         (authorization_code "abc")) = true
  ∧ (refreshAccessToken env "u1" connected).1 = Normal None
  ∧ same_tokens connected (refreshAccessToken env "u1" connected).2
  ∧ (∃ st, (callback env (returning "abc" S1) connected).1
           = Normal (JsonReply st (ErrorBody "Token exchange failed")))
  ∧ same_tokens connected (callback env (returning "abc" S1) connected).2.
Proof.
  intros env S1.
  pose proof (C6_failure_writes_nothing env connected "u1" "abc" S1
                {| userId := "u1"; timestamp := 1000 |})
    as (Hrefresh & _ & Hexchange).
  assert (∀ token,
            rejected (Some 10000)
              (token_server env
                 (trace connected
                  ++ [Console log ("Refreshing access token for user: "
                                   +:+ "u1")])
                 (now connected) (refresh_token_grant token)) = true)
    as Hdown by (intros token; reflexivity).
  split; [exact Hdown|]. split; [by vm_compute|]. split; [by vm_compute|].
  split; [reflexivity|]. split; [reflexivity|].
  destruct (Hrefresh Hdown) as [Hnull Hsame].
  split; [exact Hnull|]. split; [exact Hsame|].
  apply Hexchange; by vm_compute.
Defined.

(** What a successful refresh returns and writes. *)
Lemma refresh_success (env : Env) (user : string) (w w' : World)
    (r : TokenData) :
  refreshAccessToken env user w = (Normal (Some r), w') →
  ∃ old response w1,
    getTokenData user w = (Normal (Some old), w)
    ∧ axios_post_token env (Some 10000) (refresh_token_grant (refreshToken old))
        (emit (Console log ("Refreshing access token for user: " +:+ user)) w)
      = (Normal response, w1)
    ∧ r = refreshed_record old (token_fields (data response)) (now w1)
    ∧ now w' = now w1
    ∧ ready (redis w') = true
    ∧ entries (redis w') !! key user
      = Some {| payload := r; px := expiresAt r - now w1; writtenAt := now w1 |}
    ∧ 0 < expiresAt r - now w1.
Proof.
  intros Hrun.
  destruct (getTokenData_total user w) as [stored Hget].
  destruct (truthy (stored ≫= refreshToken)) eqn:Htruthy.
  - destruct stored as [old|]; [|done]. simpl in Htruthy.
    rewrite (refresh_attempt env user w old Hget Htruthy) in Hrun.
    cbv zeta in Hrun.
    destruct (axios_post_token _ _ _ _) as [[response|e] w1] eqn:Hpost;
      [|done].
    destruct (Z.leb_spec
                (expiresAt (refreshed_record old (token_fields (data response))
                              (now w1)) - now w1) 0) as [|Hpos]; [done|].
    injection Hrun as <- <-.
    exists old, response, w1. simpl. repeat split; try done.
    by rewrite lookup_insert_eq.
  - by rewrite (refresh_missing env user w stored Hget Htruthy) in Hrun.
Qed.

(** The expiry a refresh computes is the provider's lifetime counted from
    the moment the answer arrived: nothing is taken off. *)
Lemma refresh_expiry (env : Env) (user : string) (w w' : World)
    (r : TokenData) :
  refreshAccessToken env user w = (Normal (Some r), w') →
  ∃ fields, expiresAt r = now w' + parse_expires_in (expires_in fields) * 1000.
Proof.
  intros Hrun.
  destruct (refresh_success env user w w' r Hrun)
    as (old & response & w1 & _ & _ & -> & -> & _).
  by exists (token_fields (data response)).
Qed.

(** C5 at a concrete refresh.  Redis holds [record1] for [u1]; the provider
    answers the refresh after 80 ms with a new access token and
    [expires_in = 3600].  The record returned and written has
    [expiresAt = now + 3600 * 1000] with [now = 1080], the time of the
    answer: the five-minute buffer is not taken off, and the Redis lifetime
    is the full hour.  The code exchange, given the same answer, does take
    [OAUTH_EXPIRY_BUFFER] off. *)
Theorem C5_refresh_takes_no_buffer_off :
  let env := scripted [] [granted "A2" None (Some 3600)] in
  let refreshed :=
    {| accessToken := Some "A2"; refreshToken := Some "R1";
       instanceUrl := Some "https://x"; expiresAt := 1080 + 3600 * 1000 |} in
  (refreshAccessToken env "u1" (holding record1)).1 = Normal (Some refreshed)
  ∧ now (refreshAccessToken env "u1" (holding record1)).2 = 1080
  ∧ entries (redis (refreshAccessToken env "u1" (holding record1)).2)
      !! key "u1"
    = Some {| payload := refreshed; px := 3600 * 1000; writtenAt := 1080 |}
  ∧ expiresAt refreshed ≠ 1080 + 3600 * 1000 - OAUTH_EXPIRY_BUFFER
  ∧ expiresAt <$> tokenStore (exchange env "u1" "abc" (holding record1)).2
                    !! "u1"
    = Some (1080 + 3600 * 1000 - OAUTH_EXPIRY_BUFFER).
Proof. repeat split; by vm_compute. Qed.

(** C7: when a refresh succeeds on a provider answer that carries no
    [refresh_token], the record it returns and writes under the user's key
    has the refresh token of the record that was stored before, and a
    [getTokenData] that follows returns that record. *)
Theorem C7_refresh_keeps_refresh_token
    (env : Env) (w w' : World) (user : string) (old r : TokenData)
    (latency st : Z) (body : Json) :
  getTokenData user w = (Normal (Some old), w) →
  token_server env
    (trace w ++ [Console log ("Refreshing access token for user: " +:+ user)])
    (now w) (refresh_token_grant (refreshToken old))
  = (latency, Responded st body) →
  refresh_token (token_fields body) = None →
  refreshAccessToken env user w = (Normal (Some r), w') →
  refreshToken r = refreshToken old
  ∧ payload <$> entries (redis w') !! key user = Some r
  ∧ getTokenData user w' = (Normal (Some r), w').
Proof.
  intros Hget Hreply Homitted Hrun.
  destruct (refresh_success env user w w' r Hrun)
    as (old' & response & w1 & Hget' & Hpost & Hr & Hnow & Hready & Hentry & Hpos).
  rewrite Hget in Hget'. injection Hget' as <-.
  assert (data response = body) as Hbody.
  { unfold axios_post_token in Hpost. simpl in Hpost. rewrite Hreply in Hpost.
    unfold settle in Hpost.
    destruct (timed_out _ _); [done|].
    destruct ((200 <=? st) && (st <? 300)); [|done].
    by injection Hpost as <- _. }
  split; [|split].
  - rewrite Hr, Hbody. simpl. by rewrite Homitted.
  - by rewrite Hentry.
  - rewrite getTokenData_up by done. rewrite Hentry. unfold alive. simpl.
    rewrite Hnow.
    destruct (Z.ltb_spec (now w1) (now w1 + (expiresAt r - now w1)));
      [done|lia].
Qed.

Lemma C7_refresh_keeps_refresh_token_witness :
  let env := scripted [] [granted "A2" None (Some 3600)] in
  let answer :=
    JToken {| access_token := Some "A2"; refresh_token := None;
              instance_url := Some "https://x"; expires_in := Some 3600 |} in
  let refreshed :=
    {| accessToken := Some "A2"; refreshToken := Some "R1";
       instanceUrl := Some "https://x"; expiresAt := 3601080 |} in
  let w := holding record1 in
  let w' := (refreshAccessToken env "u1" w).2 in
  getTokenData "u1" w = (Normal (Some record1), w)
  ∧ token_server env
      (trace w ++ [Console log ("Refreshing access token for user: " +:+ "u1")])
      (now w) (refresh_token_grant (refreshToken record1))
    = (80, Responded 200 answer)
  ∧ refresh_token (token_fields answer) = None
  ∧ refreshAccessToken env "u1" w = (Normal (Some refreshed), w')
  ∧ refreshToken refreshed = refreshToken record1
  ∧ payload <$> entries (redis w') !! key "u1" = Some refreshed
  ∧ getTokenData "u1" w' = (Normal (Some refreshed), w').
Proof.
  intros env answer refreshed w w'.
  split; [reflexivity|]. split; [reflexivity|]. split; [reflexivity|].
  split; [reflexivity|].
  apply (C7_refresh_keeps_refresh_token env w w' "u1" record1 refreshed
           80 200 answer); reflexivity.
Defined.

End RefreshClaims.

(** ** Calls over the token store service *)

Section LiveCallFacts.
Import TokenStoreService SalesforceLive Fixtures.

(** A refresh never throws; it emits at least one event, none of them an
    API request, and at most one request to the token endpoint. *)
Lemma refresh_trace (env : Env) (user : string) (w : World) :
  ∃ refreshed w1 evs,
    refreshAccessToken env user w = (Normal refreshed, w1)
    ∧ trace w1 = (trace w ++ evs)%list
    ∧ evs ≠ []
    ∧ filter is_api_call evs = []
    ∧ (token_posts evs ≤ 1)%nat.
Proof.
  destruct (getTokenData_total user w) as [stored Hget].
  destruct (truthy (stored ≫= refreshToken)) eqn:Htruthy.
  - destruct stored as [old|]; [|done]. simpl in Htruthy.
    rewrite (refresh_attempt env user w old Hget Htruthy). cbv zeta.
    unfold axios_post_token.
    match goal with
    | |- context [settle ?t ?r ?w0] =>
        pose proof (settle_stores t r w0) as (Htr & _)
    end.
    destruct (settle _ _ _) as [[response|e] w1]; simpl in Htr.
    + destruct (_ <=? 0); eexists _, _, _; (split; [done|]); simpl;
        rewrite Htr, <- !app_assoc; (split; [reflexivity|]);
        repeat split; try done; unfold token_posts; simpl; lia.
    + eexists _, _, _. split; [done|]. simpl.
      rewrite Htr, <- !app_assoc. split; [reflexivity|].
      repeat split; try done; unfold token_posts; simpl; lia.
  - rewrite (refresh_missing env user w stored Hget Htruthy).
    eexists _, _, _. split; [done|]. split; [reflexivity|].
    repeat split; try done; unfold token_posts; simpl; lia.
Qed.

(** A call on a record within thirty seconds of its expiry is a refresh
    followed, when the refresh succeeds, by one request made with the
    record the refresh returned. *)
Lemma call_expiring (env : Env) (user endpoint : string) (method : Method)
    (body : option string) (w : World) (td : TokenData) :
  getTokenData user w = (Normal (Some td), w) →
  expiresAt td < now w + 30000 →
  makeSalesforceApiCall env user endpoint method body w
  = match refreshAccessToken env user w with
    | (Normal (Some r), w1) =>
        axios env (Some 15000)
          (bearer_request method (interpolate (instanceUrl r) +:+ endpoint)
             body (accessToken r)) w1
    | (Normal None, w1) => (Abrupt (JsError "Unable to refresh token."), w1)
    | (Abrupt e, w1) => (Abrupt e, w1)
    end.
Proof.
  intros Hget Hsoon. unfold makeSalesforceApiCall.
  rewrite run_bind, Hget. cbn iota beta.
  rewrite run_bind. unfold Date_now at 1, gets at 1. cbn iota beta.
  destruct (Z.ltb_spec (expiresAt td) (now w + 30000)) as [_|]; [|lia].
  rewrite !run_bind.
  destruct (refreshAccessToken env user w) as [[[r|]|e] w1]; done.
Qed.

(** A call for a user of whom [getTokenData] knows nothing throws before
    anything is sent. *)
Lemma call_unauthenticated (env : Env) (user endpoint : string)
    (method : Method) (body : option string) (w : World) :
  getTokenData user w = (Normal None, w) →
  makeSalesforceApiCall env user endpoint method body w
  = (Abrupt (JsError "User is not authenticated with Salesforce."), w).
Proof.
  intros Hget. unfold makeSalesforceApiCall. by rewrite run_bind, Hget.
Qed.

(** After [clearTokenData], with the Redis client in the state it was in
    during the clear, [getTokenData] returns nothing. *)
Lemma clear_then_get (user : string) (w : World) :
  (clearTokenData user;; getTokenData user) w
  = (Normal None, (clearTokenData user w).2).
Proof.
  rewrite run_bind. unfold clearTokenData, isRedisConnected. run.
  destruct (ready (redis w)) eqn:Hready.
  - unfold redis_del. run. rewrite getTokenData_up by done. simpl.
    by rewrite lookup_delete_eq.
  - by rewrite getTokenData_down.
Qed.

(** The record a successful refresh returns is the one [getTokenData]
    returns next. *)
Lemma refresh_then_get (env : Env) (user : string) (w w' : World)
    (r : TokenData) :
  refreshAccessToken env user w = (Normal (Some r), w') →
  getTokenData user w' = (Normal (Some r), w').
Proof.
  intros Hrun.
  destruct (refresh_success env user w w' r Hrun)
    as (old & response & w1 & _ & _ & _ & Hnow & Hready & Hentry & Hpos).
  rewrite getTokenData_up by done. rewrite Hentry. unfold alive. simpl.
  rewrite Hnow.
  destruct (Z.ltb_spec (now w1) (now w1 + (expiresAt r - now w1)));
    [done|lia].
Qed.

End LiveCallFacts.

Section LiveCallClaims.
Import TokenStoreService SalesforceLive SalesforceAuth Fixtures.

(** C2: when the stored record expires less than thirty seconds from now,
    the call first runs [refreshAccessToken]: the events of the refresh
    come before anything else the call emits and contain no API request.
    When the refresh returns a record, the one outbound request is made
    afterwards, to the instance URL and with the access token of that
    record, which is also the record now in the store; when the refresh
    returns [null] the call throws and no request is made. *)
Theorem C2_refresh_before_request
    (env : Env) (user endpoint : string) (method : Method)
    (body : option string) (w : World) (td : TokenData) :
  getTokenData user w = (Normal (Some td), w) →
  expiresAt td < now w + 30000 →
  ∃ refreshed w1 evs,
    refreshAccessToken env user w = (Normal refreshed, w1)
    ∧ trace w1 = (trace w ++ evs)%list
    ∧ evs ≠ []
    ∧ filter is_api_call evs = []
    ∧ match refreshed with
      | Some r =>
          let request :=
            bearer_request method (interpolate (instanceUrl r) +:+ endpoint)
              body (accessToken r) in
          getTokenData user w1 = (Normal (Some r), w1)
          ∧ makeSalesforceApiCall env user endpoint method body w
            = axios env (Some 15000) request w1
          ∧ trace (makeSalesforceApiCall env user endpoint method body w).2
            = (trace w ++ evs ++ [ApiCall request])%list
      | None =>
          makeSalesforceApiCall env user endpoint method body w
          = (Abrupt (JsError "Unable to refresh token."), w1)
      end.
Proof.
  intros Hget Hsoon.
  destruct (refresh_trace env user w)
    as (refreshed & w1 & evs & Hrun & Htrace & Hne & Hapi & _).
  exists refreshed, w1, evs. repeat (split; [done|]).
  rewrite (call_expiring env user endpoint method body w td Hget Hsoon), Hrun.
  destruct refreshed as [r|]; [|done].
  cbv zeta. split; [by apply (refresh_then_get env user w)|].
  split; [done|]. unfold axios.
  match goal with
  | |- context [settle ?t ?r ?w0] =>
      pose proof (settle_stores t r w0) as (-> & _)
  end.
  simpl. by rewrite Htrace, <- app_assoc.
Qed.

Lemma C2_refresh_before_request_witness :
  let env := scripted [] [granted "A2" None (Some 3600)] in
  let w := holding expiring1 in
  getTokenData "u1" w = (Normal (Some expiring1), w)
  ∧ expiresAt expiring1 < now w + 30000
  ∧ ∃ refreshed w1 evs,
      refreshAccessToken env "u1" w = (Normal refreshed, w1)
      ∧ trace w1 = (trace w ++ evs)%list
      ∧ evs ≠ []
      ∧ filter is_api_call evs = []
      ∧ match refreshed with
        | Some r =>
            let request :=
              bearer_request GET
                (interpolate (instanceUrl r) +:+ "/services/oauth2/userinfo")
                None (accessToken r) in
            getTokenData "u1" w1 = (Normal (Some r), w1)
            ∧ makeSalesforceApiCall env "u1" "/services/oauth2/userinfo"
                GET None w
              = axios env (Some 15000) request w1
            ∧ trace (makeSalesforceApiCall env "u1"
                       "/services/oauth2/userinfo" GET None w).2
              = (trace w ++ evs ++ [ApiCall request])%list
        | None =>
            makeSalesforceApiCall env "u1" "/services/oauth2/userinfo"
              GET None w
            = (Abrupt (JsError "Unable to refresh token."), w1)
        end.
Proof.
  intros env w. split; [reflexivity|]. split; [reflexivity|].
  apply (C2_refresh_before_request env "u1" "/services/oauth2/userinfo"
           GET None w expiring1); reflexivity.
Defined.

(** The same call, run: the refresh, then the request with the new token. *)
Example call_on_expiring_record :
  let env := scripted [] [granted "A2" None (Some 3600)] in
  let call :=
    makeSalesforceApiCall env "u1" "/services/oauth2/userinfo" GET None in
  (call (holding expiring1)).1
  = Normal {| status := 200; data := JText "body" |}
  ∧ trace (call (holding expiring1)).2
    = [Console log "Refreshing access token for user: u1";
       TokenPost (refresh_token_grant (Some "R1"));
       Console log "Access token refreshed for u1";
       ApiCall (bearer_request GET "https://x/services/oauth2/userinfo" None
                  (Some "A2"))].
Proof. split; reflexivity. Qed.

(** [POST /disconnect] does not reach the token store service: what
    [getTokenData] returns is the same before and after. *)
Lemma disconnect_leaves_service_store
    (q_userId : option string) (user : string) (w : World) :
  (getTokenData user (disconnect q_userId w).2).1 = (getTokenData user w).1.
Proof.
  assert (redis (disconnect q_userId w).2 = redis w
          ∧ now (disconnect q_userId w).2 = now w) as [Hredis Hnow].
  { unfold disconnect. by destruct (nonempty q_userId). }
  destruct (ready (redis w)) eqn:Hready.
  - rewrite !getTokenData_up by (by rewrite ?Hredis). simpl.
    by rewrite Hredis, Hnow.
  - by rewrite !getTokenData_down by (by rewrite ?Hredis).
Qed.

(** C9 at a concrete disconnect.  User [u1] is connected: the
    authorization route's [tokenStore] and Redis both hold the user's
    record, valid for almost an hour.  [POST /disconnect] answers [200] and
    removes the record from the route's own [tokenStore]; Redis is not
    touched.  [getTokenData] still returns the record, and the call that
    follows sends the request with the user's access token and returns
    the provider's answer. *)
Theorem C9_call_after_disconnect_still_sent :
  let env := scripted [] [] in
  let w' := (disconnect (Some "u1") connected).2 in
  let call := makeSalesforceApiCall env "u1" "/services/oauth2/userinfo" GET None in
  (disconnect (Some "u1") connected).1
  = Normal (JsonReply 200 (MessageBody "Disconnected from Salesforce"))
  ∧ tokenStore w' !! "u1" = None
  ∧ getTokenData "u1" w' = (Normal (Some record1), w')
  ∧ (call w').1 = Normal {| status := 200; data := JText "body" |}
  ∧ trace (call w').2
    = [ApiCall (bearer_request GET "https://x/services/oauth2/userinfo" None
                  (Some "A1"))].
Proof. repeat split; by vm_compute. Qed.

End LiveCallClaims.

(** ** Calls over the in-memory token store *)

Section MemoryCallFacts.
Import SalesforceLiveMemory Fixtures.

(** The in-memory refresh never throws; it emits no API request and at
    most one request to the token endpoint. *)
Lemma memory_refresh_trace (env : Env) (user : string) (w : World) :
  ∃ refreshed w1 evs,
    refreshAccessToken env user w = (Normal refreshed, w1)
    ∧ trace w1 = (trace w ++ evs)%list
    ∧ filter is_api_call evs = []
    ∧ (token_posts evs ≤ 1)%nat.
Proof.
  unfold refreshAccessToken. run.
  destruct (liveTokenStore w !! user) as [td|];
    [destruct (truthy (stampedRefreshToken td))|].
  - match goal with
    | |- context [settle ?t ?r ?w0] =>
        pose proof (settle_stores t r w0) as (Htr & _)
    end.
    destruct (settle _ _ _) as [[response|e] w1]; simpl in Htr.
    + eexists _, _, _. split; [done|]. simpl.
      rewrite Htr, <- !app_assoc. split; [reflexivity|].
      split; [done|]. unfold token_posts. simpl. lia.
    + destruct (is_axios_error e); eexists _, _, _; (split; [done|]); simpl;
        rewrite Htr, <- !app_assoc; (split; [reflexivity|]);
        (split; [done|]); unfold token_posts; simpl; lia.
  - eexists _, _, _. split; [done|]. split; [reflexivity|].
    split; [done|]. unfold token_posts. simpl. lia.
  - eexists _, _, _. split; [done|]. split; [reflexivity|].
    split; [done|]. unfold token_posts. simpl. lia.
Qed.

(** One request: a console line, the request itself, and nothing else. *)
Lemma makeRequest_trace (env : Env) (endpoint : string) (method : Method)
    (body accessToken instanceUrl : option string) (w : World) :
  trace (makeRequest env endpoint method body accessToken instanceUrl w).2
  = (trace w
     ++ [Console log ("Making Salesforce API call: " +:+ show_method method
                      +:+ " " +:+ interpolate instanceUrl +:+ endpoint);
         ApiCall (bearer_request method (interpolate instanceUrl +:+ endpoint)
                    body accessToken)])%list.
Proof.
  unfold makeRequest. run.
  match goal with
  | |- context [settle ?t ?r ?w0] =>
      pose proof (settle_stores t r w0) as (-> & _)
  end.
  simpl. by rewrite <- app_assoc.
Qed.

(** A request answered in time with [401] throws the response. *)
Lemma makeRequest_unauthorized (env : Env) (endpoint : string)
    (method : Method) (body accessToken instanceUrl : option string)
    (w : World) (latency : Z) (data401 : Json) :
  let url := interpolate instanceUrl +:+ endpoint in
  let w0 := emit (Console log ("Making Salesforce API call: "
                               +:+ show_method method +:+ " " +:+ url)) w in
  api_server env (trace w0) (now w0) (bearer_request method url body accessToken)
  = (latency, Responded 401 data401) →
  latency < 15000 →
  makeRequest env endpoint method body accessToken instanceUrl w
  = (Abrupt (AxiosError (Some (401, data401))),
     advance latency
       (emit (ApiCall (bearer_request method url body accessToken)) w0)).
Proof.
  intros url w0 Hreply Hfast. unfold makeRequest. run. fold url. fold w0.
  rewrite Hreply. unfold settle, timed_out.
  destruct (Z.leb_spec 15000 latency); [lia|done].
Qed.

(** The in-memory refresh, too, keeps the stored refresh token when the
    provider's answer carries none, and stores the record it returns. *)
Lemma memory_refresh_keeps_refresh_token
    (env : Env) (w w' : World) (user : string) (old r : StampedTokenData)
    (latency st : Z) (body : Json) :
  liveTokenStore w !! user = Some old →
  token_server env
    (trace w ++ [Console log ("Refreshing access token for user: " +:+ user)])
    (now w) (refresh_token_grant (stampedRefreshToken old))
  = (latency, Responded st body) →
  refresh_token (token_fields body) = None →
  refreshAccessToken env user w = (Normal (Some r), w') →
  stampedRefreshToken r = stampedRefreshToken old
  ∧ liveTokenStore w' !! user = Some r.
Proof.
  intros Hstored Hreply Homitted. unfold refreshAccessToken. run.
  rewrite Hstored. destruct (truthy (stampedRefreshToken old)); [|done].
  simpl trace. simpl now. rewrite Hreply. unfold settle.
  destruct (timed_out _ _).
  { destruct (is_axios_error _); done. }
  destruct ((200 <=? st) && (st <? 300)).
  - simpl. intros [= <- <-]. simpl. rewrite Homitted.
    split; [done|]. by rewrite lookup_insert_eq.
  - destruct (is_axios_error _); done.
Qed.

End MemoryCallFacts.

Section MemoryCallClaims.
Import SalesforceLiveMemory Fixtures.

(** C1, counterexample: the first request is answered [401] and the
    provider then refuses the refresh.  The call throws
    ["Failed to refresh access token. Please re-authenticate."]: one
    request to the API, one to the token endpoint, and no reissued
    request. *)
Lemma C1_no_retry_when_refresh_fails :
  let env := scripted [401] [Responded 400 (JText "invalid_grant")] in
  let call :=
    makeSalesforceApiCall env "u1" "/services/oauth2/userinfo" GET None in
  api_server env [Console log "Making Salesforce API call: GET https://x/services/oauth2/userinfo"]
    1000
    (bearer_request GET "https://x/services/oauth2/userinfo" None (Some "A1"))
  = (50, Responded 401 (JText "body"))
  ∧ (call remembering).1
    = Abrupt (JsError "Failed to refresh access token. Please re-authenticate.")
  ∧ trace (call remembering).2
    = [Console log "Making Salesforce API call: GET https://x/services/oauth2/userinfo";
       ApiCall (bearer_request GET "https://x/services/oauth2/userinfo" None
                  (Some "A1"));
       Console log "Access token expired, attempting refresh for user: u1";
       Console log "Refreshing access token for user: u1";
       TokenPost (refresh_token_grant (Some "R1"));
       Console error "Failed to refresh access token for user u1:";
       Console error "Status: 400, Error:"]
  ∧ api_calls (trace (call remembering).2) = 1%nat.
Proof. repeat split; by vm_compute. Qed.

(** C1, amended: when the first request of a call is answered [401], the
    in-memory client runs [refreshAccessToken] once, which sends at most
    one request to the token endpoint.  If the refresh returns a record,
    the request is reissued exactly once with that record's token and URL,
    and the outcome of the call is the outcome of that retry: in
    particular, a retry answered [401] makes the call throw that [401]
    response.  If the refresh returns [null], the call throws and nothing
    is reissued.  In every case the call sends at most two API requests. *)
Theorem C1_one_refresh_one_retry
    (env : Env) (user endpoint : string) (method : Method)
    (body : option string) (w : World) (td : StampedTokenData)
    (latency : Z) (data401 : Json) :
  let url := interpolate (stampedInstanceUrl td) +:+ endpoint in
  let first := bearer_request method url body (stampedAccessToken td) in
  let w0 := emit (Console log ("Making Salesforce API call: "
                               +:+ show_method method +:+ " " +:+ url)) w in
  liveTokenStore w !! user = Some td →
  api_server env (trace w0) (now w0) first = (latency, Responded 401 data401) →
  latency < 15000 →
  ∃ refreshed w1 evs,
    refreshAccessToken env user
      (emit (Console log ("Access token expired, attempting refresh for user: "
                          +:+ user))
         (advance latency (emit (ApiCall first) w0)))
    = (Normal refreshed, w1)
    ∧ trace (makeSalesforceApiCall env user endpoint method body w).2
      = (trace w ++ evs)%list
    ∧ (token_posts evs ≤ 1)%nat
    ∧ (api_calls evs ≤ 2)%nat
    ∧ match refreshed with
      | None =>
          (makeSalesforceApiCall env user endpoint method body w).1
          = Abrupt (JsError
              "Failed to refresh access token. Please re-authenticate.")
          ∧ filter is_api_call evs = [ApiCall first]
      | Some r =>
          let retry_url := interpolate (stampedInstanceUrl r) +:+ endpoint in
          let retry :=
            bearer_request method retry_url body (stampedAccessToken r) in
          filter is_api_call evs = [ApiCall first; ApiCall retry]
          ∧ (makeSalesforceApiCall env user endpoint method body w).1
            = (makeRequest env endpoint method body (stampedAccessToken r)
                 (stampedInstanceUrl r) w1).1
          ∧ ∀ latency' data',
              api_server env
                (trace w1
                 ++ [Console log ("Making Salesforce API call: "
                                  +:+ show_method method +:+ " "
                                  +:+ retry_url)])
                (now w1) retry
              = (latency', Responded 401 data') →
              latency' < 15000 →
              (makeSalesforceApiCall env user endpoint method body w).1
              = Abrupt (AxiosError (Some (401, data')))
      end.
Proof.
  intros url first w0 Hstored Hreply Hfast.
  set (wa := emit _ (advance latency (emit (ApiCall first) w0))).
  destruct (memory_refresh_trace env user wa)
    as (refreshed & w1 & revs & Hrefresh & Htrace & Hnoapi & Hposts).
  assert (makeSalesforceApiCall env user endpoint method body w
          = match refreshed with
            | None =>
                (Abrupt (JsError
                   "Failed to refresh access token. Please re-authenticate."),
                 w1)
            | Some r =>
                match makeRequest env endpoint method body
                        (stampedAccessToken r) (stampedInstanceUrl r) w1 with
                | (Normal response, w2) => (Normal response, w2)
                | (Abrupt e, w2) =>
                    (Abrupt e,
                     emit (Console error
                             "API call failed even after token refresh:") w2)
                end
            end) as Hcall.
  { unfold makeSalesforceApiCall. rewrite run_bind. unfold gets at 1.
    rewrite Hstored. cbn iota beta. unfold try_catch at 1.
    rewrite (makeRequest_unauthorized env endpoint method body
               (stampedAccessToken td) (stampedInstanceUrl td) w latency
               data401 Hreply Hfast).
    cbn iota beta.
    change (is_unauthorized (AxiosError (Some (401, data401)))) with true.
    cbn iota.
    rewrite run_bind. unfold console at 1, modify at 1. cbn iota beta.
    rewrite run_bind. fold url. fold first. fold w0. fold wa.
    rewrite Hrefresh. cbn iota beta.
    destruct refreshed as [r|]; [|done].
    unfold try_catch.
    by destruct (makeRequest _ _ _ _ _ _ w1) as [[response|e] w2]. }
  assert (trace wa
          = (trace w
             ++ [Console log ("Making Salesforce API call: "
                              +:+ show_method method +:+ " " +:+ url);
                 ApiCall first;
                 Console log ("Access token expired, attempting refresh for user: "
                              +:+ user)])%list) as Hwa.
  { simpl. by rewrite <- !app_assoc. }
  exists refreshed, w1. rewrite Hcall.
  destruct refreshed as [r|].
  - pose proof (makeRequest_trace env endpoint method body
                  (stampedAccessToken r) (stampedInstanceUrl r) w1) as Hretry.
    pose proof (makeRequest_unauthorized env endpoint method body
                  (stampedAccessToken r) (stampedInstanceUrl r) w1) as H401.
    destruct (makeRequest _ _ _ _ _ _ w1) as [[response|e] w2];
      simpl in Hretry; eexists; (split; [done|]);
      (split; [simpl; rewrite Hretry, Htrace, Hwa, <- !app_assoc;
               reflexivity|]);
      unfold token_posts, api_calls in *;
      rewrite !filter_app, !length_app, ?Hnoapi; simpl;
      (split; [lia|]); (split; [lia|]); (split; [done|]);
      (split; [done|]); intros latency' data' Hreply' Hfast';
      specialize (H401 latency' data' Hreply' Hfast'); congruence.
  - eexists. split; [done|]. simpl. rewrite Htrace, Hwa, <- !app_assoc.
    split; [reflexivity|].
    unfold token_posts, api_calls in *.
    rewrite !filter_app, !length_app, ?Hnoapi. simpl.
    split; [lia|]. split; [lia|]. done.
Qed.

Lemma C1_one_refresh_one_retry_witness :
  let env := scripted [401; 401] [granted "A2" None None] in
  let endpoint := "/services/oauth2/userinfo" in
  let url := interpolate (stampedInstanceUrl stamped1) +:+ endpoint in
  let first := bearer_request GET url None (stampedAccessToken stamped1) in
  let w0 := emit (Console log ("Making Salesforce API call: "
                               +:+ show_method GET +:+ " " +:+ url))
              remembering in
  liveTokenStore remembering !! "u1" = Some stamped1
  ∧ api_server env (trace w0) (now w0) first
    = (50, Responded 401 (JText "body"))
  ∧ 50 < 15000
  ∧ ∃ refreshed w1 evs,
      refreshAccessToken env "u1"
        (emit (Console log ("Access token expired, attempting refresh for user: "
                            +:+ "u1"))
           (advance 50 (emit (ApiCall first) w0)))
      = (Normal refreshed, w1)
      ∧ trace (makeSalesforceApiCall env "u1" endpoint GET None remembering).2
        = (trace remembering ++ evs)%list
      ∧ (token_posts evs ≤ 1)%nat
      ∧ (api_calls evs ≤ 2)%nat
      ∧ match refreshed with
        | None =>
            (makeSalesforceApiCall env "u1" endpoint GET None remembering).1
            = Abrupt (JsError
                "Failed to refresh access token. Please re-authenticate.")
            ∧ filter is_api_call evs = [ApiCall first]
        | Some r =>
            let retry_url := interpolate (stampedInstanceUrl r) +:+ endpoint in
            let retry :=
              bearer_request GET retry_url None (stampedAccessToken r) in
            filter is_api_call evs = [ApiCall first; ApiCall retry]
            ∧ (makeSalesforceApiCall env "u1" endpoint GET None remembering).1
              = (makeRequest env endpoint GET None (stampedAccessToken r)
                   (stampedInstanceUrl r) w1).1
            ∧ ∀ latency' data',
                api_server env
                  (trace w1
                   ++ [Console log ("Making Salesforce API call: "
                                    +:+ show_method GET +:+ " "
                                    +:+ retry_url)])
                  (now w1) retry
                = (latency', Responded 401 data') →
                latency' < 15000 →
                (makeSalesforceApiCall env "u1" endpoint GET None remembering).1
                = Abrupt (AxiosError (Some (401, data')))
        end.
Proof.
  intros env endpoint url first w0.
  split; [reflexivity|]. split; [reflexivity|]. split; [reflexivity|].
  apply (C1_one_refresh_one_retry env "u1" endpoint GET None remembering
           stamped1 50 (JText "body")); reflexivity.
Defined.

(** The same call, run: both requests are answered [401]; the call throws
    the second response after two API requests and one refresh. *)
Example call_unauthorized_twice :
  let env := scripted [401; 401] [granted "A2" None None] in
  let call :=
    makeSalesforceApiCall env "u1" "/services/oauth2/userinfo" GET None in
  (call remembering).1 = Abrupt (AxiosError (Some (401, JText "body")))
  ∧ filter is_api_call (trace (call remembering).2)
    = [ApiCall (bearer_request GET "https://x/services/oauth2/userinfo" None
                  (Some "A1"));
       ApiCall (bearer_request GET "https://x/services/oauth2/userinfo" None
                  (Some "A2"))]
  ∧ token_posts (trace (call remembering).2) = 1%nat
  ∧ stampedRefreshToken <$> liveTokenStore (call remembering).2 !! "u1"
    = Some (Some "R1").
Proof. repeat split; by vm_compute. Qed.

End MemoryCallClaims.


(** * Further facts *)

(** ** The token store service, continued *)

Section TokenStoreMore.
Import TokenStoreService Fixtures.

(** What [getTokenData] returns depends on the Redis client, the keys and
    the clock only. *)
Lemma getTokenData_result (user : string) (w w' : World) :
  redis w' = redis w → now w' = now w →
  (getTokenData user w').1 = (getTokenData user w).1.
Proof.
  intros Hredis Hnow. destruct (ready (redis w)) eqn:Hready.
  - rewrite !getTokenData_up by (by rewrite ?Hredis). simpl.
    by rewrite Hredis, Hnow.
  - by rewrite !getTokenData_down by (by rewrite ?Hredis).
Qed.

Lemma setTokenData_cases (user : string) (record : TokenData) (w : World) :
  (ready (redis w) = false
   ∧ setTokenData user record w
     = (Normal tt, emit (Console warn "Redis unavailable, token not persisted.") w))
  ∨ (ready (redis w) = true ∧ expiresAt record - now w ≤ 0
     ∧ setTokenData user record w
       = (Abrupt (JsError "ERR invalid expire time in 'set' command"), w))
  ∨ (ready (redis w) = true ∧ 0 < expiresAt record - now w
     ∧ setTokenData user record w
       = (Normal tt,
          with_redis
            {| ready := true;
               entries := <[key user := {| payload := record;
                                           px := expiresAt record - now w;
                                           writtenAt := now w |}]>
                            (entries (redis w)) |} w)).
Proof.
  destruct (ready (redis w)) eqn:Hready.
  - right. rewrite setTokenData_up by done. unfold redis_set.
    destruct (Z.leb_spec (expiresAt record - now w) 0); [left|right];
      by rewrite ?Hready.
  - left. split; [done|]. by apply setTokenData_down.
Qed.

Lemma clearTokenData_cases (user : string) (w : World) :
  clearTokenData user w
  = (Normal tt,
     if ready (redis w)
     then with_redis {| ready := true;
                        entries := delete (key user) (entries (redis w)) |} w
     else w).
Proof.
  unfold clearTokenData, isRedisConnected, redis_del. run.
  destruct (ready (redis w)) eqn:Hready; by rewrite ?Hready.
Qed.

(** X1: writing or clearing the record of one user never changes what
    [getTokenData] returns for another user, whatever the state of the Redis
    client and whether or not the write goes through. *)
Theorem X1_other_users_untouched
    (user other : string) (record : TokenData) (w : World) :
  user ≠ other →
  (getTokenData other (setTokenData user record w).2).1
  = (getTokenData other w).1
  ∧ (getTokenData other (clearTokenData user w).2).1
    = (getTokenData other w).1.
Proof.
  intros Hne.
  assert (key user ≠ key other) as Hkey by (intros Heq; by apply Hne, key_inj).
  split.
  - destruct (setTokenData_cases user record w)
      as [[Hdown ->]|[(Hup & _ & ->)|(Hup & _ & ->)]].
    + by apply getTokenData_result.
    + done.
    + rewrite !getTokenData_up by done. simpl.
      by rewrite lookup_insert_ne.
  - rewrite clearTokenData_cases. destruct (ready (redis w)) eqn:Hready; [|done].
    rewrite !getTokenData_up by done. simpl.
    by rewrite lookup_delete_ne.
Qed.

Lemma X1_other_users_untouched_witness :
  "u1" ≠ "u2"
  ∧ (getTokenData "u1" (setTokenData "u2" expiring1 (holding record1)).2).1
    = Normal (Some record1)
  ∧ (getTokenData "u1" (clearTokenData "u2" (holding record1)).2).1
    = Normal (Some record1).
Proof.
  split; [by vm_compute|].
  destruct (X1_other_users_untouched "u2" "u1" expiring1 (holding record1))
    as [Hset Hclear]; [by vm_compute|].
  split; [rewrite Hset|rewrite Hclear]; reflexivity.
Defined.



(** X3: [setTokenData] is an upsert.  Of two writes for the same user, made
    with the Redis client ready and each record unexpired when written, only
    the second is left: its record is the one returned, with its own
    lifetime, and the key set of Redis is what one write would have made
    it. *)
Theorem X3_second_write_replaces_first
    (user : string) (first second : TokenData) (w : World) (d : Z) :
  ready (redis w) = true → 0 ≤ d →
  expiresAt first > now w → expiresAt second > now w + d →
  let w1 := advance d (setTokenData user first w).2 in
  let w2 := (setTokenData user second w1).2 in
  getTokenData user w2 = (Normal (Some second), w2)
  ∧ entries (redis w2)
    = <[key user := {| payload := second;
                       px := expiresAt second - (now w + d);
                       writtenAt := now w + d |}]> (entries (redis w)).
Proof.
  intros Hup Hd Hfirst Hsecond w1 w2. subst w1 w2.
  destruct (setTokenData_cases user first w)
    as [[Hdown _]|[(_ & Hle & _)|(_ & _ & ->)]]; [congruence|lia|].
  match goal with
  | |- context [setTokenData user second ?w1] =>
      destruct (setTokenData_cases user second w1)
        as [[Hdown _]|[(_ & Hle & _)|(_ & _ & ->)]]
  end; [done|simpl in Hle; lia|].
  simpl. split.
  - rewrite getTokenData_up by done. simpl. rewrite lookup_insert_eq.
    unfold alive. simpl.
    destruct (Z.ltb_spec (now w + d)
                (now w + d + (expiresAt second - (now w + d)))); [done|lia].
  - by rewrite insert_insert_eq.
Qed.

Lemma X3_second_write_replaces_first_witness :
  let w1 := advance 5000 (setTokenData "u1" expiring1 (blank true)).2 in
  let w2 := (setTokenData "u1" record1 w1).2 in
  ready (redis (blank true)) = true ∧ 0 ≤ 5000
  ∧ expiresAt expiring1 > now (blank true)
  ∧ expiresAt record1 > now (blank true) + 5000
  ∧ getTokenData "u1" w2 = (Normal (Some record1), w2)
  ∧ entries (redis w2)
    = <[key "u1" := {| payload := record1;
                       px := expiresAt record1 - (now (blank true) + 5000);
                       writtenAt := now (blank true) + 5000 |}]>
        (entries (redis (blank true))).
Proof.
  intros w1 w2.
  split; [reflexivity|]. split; [by vm_compute|]. split; [reflexivity|].
  split; [reflexivity|].
  apply (X3_second_write_replaces_first "u1" expiring1 record1 (blank true) 5000);
    by vm_compute.
Defined.

(** X4: [clearTokenData] removes the user's record when the Redis client is
    ready: no later [getTokenData] returns it.  When the client is not
    ready the clear does nothing at all, without any error or warning: the
    record is still in Redis and is returned again once the client is
    ready. *)
Theorem X4_clear_only_when_ready
    (user : string) (w : World) (e : RedisEntry) (d : Z) :
  entries (redis w) !! key user = Some e →
  alive (now w + d) e = true →
  (ready (redis w) = true →
   getTokenData user (advance d (clearTokenData user w).2)
   = (Normal None, advance d (clearTokenData user w).2))
  ∧ (ready (redis w) = false →
     clearTokenData user w = (Normal tt, w)
     ∧ (getTokenData user (set_ready true (advance d (clearTokenData user w).2))).1
       = Normal (Some (payload e))).
Proof.
  intros Hentry Halive. rewrite clearTokenData_cases. split; intros Hready;
    rewrite Hready.
  - rewrite getTokenData_up by done. simpl. by rewrite lookup_delete_eq.
  - split; [done|]. rewrite getTokenData_up by done. simpl.
    by rewrite Hentry, Halive.
Qed.

Lemma X4_clear_only_when_ready_witness :
  let e := {| payload := record1; px := 3301000; writtenAt := 0 |} in
  let w := set_ready false (holding record1) in
  entries (redis w) !! key "u1" = Some e
  ∧ alive (now w + 60000) e = true
  ∧ ready (redis w) = false
  ∧ clearTokenData "u1" w = (Normal tt, w)
  ∧ (getTokenData "u1" (set_ready true (advance 60000 (clearTokenData "u1" w).2))).1
    = Normal (Some record1).
Proof.
  intros e w. split; [reflexivity|]. split; [reflexivity|].
  split; [reflexivity|].
  apply (X4_clear_only_when_ready "u1" w e 60000); reflexivity.
Defined.

End TokenStoreMore.


(** ** Refreshing and calling over the token store service, continued *)

Section LiveMore.
Import TokenStoreService SalesforceLive Fixtures.

(** X5: [refreshAccessToken] never throws and never sends an API request;
    it sends at most one request to the token endpoint.  When it returns
    [null] every token record is as it was; when it returns a record, that
    record is what [getTokenData] returns next. *)
Theorem X5_refresh_is_contained (env : Env) (user : string) (w : World) :
  ∃ refreshed w1 evs,
    refreshAccessToken env user w = (Normal refreshed, w1)
    ∧ trace w1 = (trace w ++ evs)%list
    ∧ api_calls evs = 0%nat
    ∧ (token_posts evs ≤ 1)%nat
    ∧ match refreshed with
      | None => same_tokens w w1
      | Some r => getTokenData user w1 = (Normal (Some r), w1)
      end.
Proof.
  destruct (refresh_trace env user w)
    as (refreshed & w1 & evs & Hrun & Htrace & _ & Hapi & Hposts).
  exists refreshed, w1, evs. split; [done|]. split; [done|].
  split; [unfold api_calls; by rewrite Hapi|]. split; [done|].
  destruct refreshed as [r|].
  - by apply (refresh_then_get env user w).
  - pose proof (refresh_null_writes_nothing env user w) as Hsame.
    rewrite Hrun in Hsame. by apply Hsame.
Qed.






End LiveMore.


Section LiveCallMore.
Import TokenStoreService SalesforceLive Fixtures.

(** A call on a record with thirty seconds or more to live is the one
    request, made with the stored record. *)
Lemma call_fresh (env : Env) (user endpoint : string) (method : Method)
    (body : option string) (w : World) (td : TokenData) :
  getTokenData user w = (Normal (Some td), w) →
  now w + 30000 ≤ expiresAt td →
  makeSalesforceApiCall env user endpoint method body w
  = axios env (Some 15000)
      (bearer_request method (interpolate (instanceUrl td) +:+ endpoint)
         body (accessToken td)) w.
Proof.
  intros Hget Hfresh. unfold makeSalesforceApiCall.
  rewrite run_bind, Hget. cbn iota beta.
  rewrite run_bind. unfold Date_now at 1, gets at 1. cbn iota beta.
  destruct (Z.ltb_spec (expiresAt td) (now w + 30000)) as [|_]; [lia|].
  by rewrite run_bind.
Qed.

Lemma axios_trace (env : Env) (timeout : option Z) (request : ApiRequest)
    (w : World) :
  trace (axios env timeout request w).2 = (trace w ++ [ApiCall request])%list
  ∧ same_tokens w (axios env timeout request w).2.
Proof.
  unfold axios.
  match goal with
  | |- context [settle ?t ?r ?w0] =>
      pose proof (settle_stores t r w0) as (-> & Hr & Ht & Hl & _)
  end.
  by repeat split.
Qed.

(** X8: when the stored record has thirty seconds or more to live, the call
    sends exactly one request, with the stored token, and nothing else: no
    refresh before it and none after it.  Its outcome is the outcome of that
    request; in particular a [401] answer is thrown to the caller as it is,
    without any retry. *)
Theorem X8_fresh_record_one_request
    (env : Env) (user endpoint : string) (method : Method)
    (body : option string) (w : World) (td : TokenData) :
  getTokenData user w = (Normal (Some td), w) →
  now w + 30000 ≤ expiresAt td →
  let request :=
    bearer_request method (interpolate (instanceUrl td) +:+ endpoint)
      body (accessToken td) in
  let done := makeSalesforceApiCall env user endpoint method body w in
  trace done.2 = (trace w ++ [ApiCall request])%list
  ∧ same_tokens w done.2
  ∧ done.1 = (settle (Some 15000) (api_server env (trace w) (now w) request)
                (emit (ApiCall request) w)).1
  ∧ ∀ latency data401,
      api_server env (trace w) (now w) request
      = (latency, Responded 401 data401) →
      latency < 15000 →
      done.1 = Abrupt (AxiosError (Some (401, data401))).
Proof.
  intros Hget Hfresh request done. subst done.
  rewrite (call_fresh env user endpoint method body w td Hget Hfresh).
  fold request.
  destruct (axios_trace env (Some 15000) request w) as [Htrace Hsame].
  split; [done|]. split; [done|]. split; [done|].
  intros latency data401 Hreply Hfast. unfold axios. rewrite Hreply.
  unfold settle, timed_out.
  by destruct (Z.leb_spec 15000 latency); [lia|].
Qed.

Lemma X8_fresh_record_one_request_witness :
  let env := scripted [401] [] in
  let w := holding record1 in
  let request :=
    bearer_request GET "https://x/services/oauth2/userinfo" None (Some "A1") in
  let done :=
    makeSalesforceApiCall env "u1" "/services/oauth2/userinfo" GET None w in
  getTokenData "u1" w = (Normal (Some record1), w)
  ∧ now w + 30000 ≤ expiresAt record1
  ∧ api_server env (trace w) (now w) request = (50, Responded 401 (JText "body"))
  ∧ trace done.2 = [ApiCall request]
  ∧ done.1 = Abrupt (AxiosError (Some (401, JText "body"))).
Proof.
  intros env w request done.
  split; [reflexivity|]. split; [by vm_compute|]. split; [reflexivity|].
  destruct (X8_fresh_record_one_request env "u1" "/services/oauth2/userinfo"
              GET None w record1) as (Htrace & _ & _ & H401);
    [reflexivity|by vm_compute|].
  split; [exact Htrace|].
  apply (H401 50 (JText "body")); [reflexivity|by vm_compute].
Defined.

(** X9: whatever the store holds and whatever the provider answers, one call
    sends at most one API request and at most one request to the token
    endpoint, and an API request, when one is sent, is the last thing the
    call emits. *)
Theorem X9_call_sends_at_most_one_of_each
    (env : Env) (user endpoint : string) (method : Method)
    (body : option string) (w : World) :
  ∃ evs,
    trace (makeSalesforceApiCall env user endpoint method body w).2
    = (trace w ++ evs)%list
    ∧ (token_posts evs ≤ 1)%nat
    ∧ (filter is_api_call evs = []
       ∨ ∃ before request,
           evs = (before ++ [ApiCall request])%list
           ∧ filter is_api_call before = []).
Proof.
  destruct (getTokenData_total user w) as [[td|] Hget].
  - destruct (Z.lt_ge_cases (expiresAt td) (now w + 30000)) as [Hsoon|Hfresh].
    + rewrite (call_expiring env user endpoint method body w td Hget Hsoon).
      destruct (refresh_trace env user w)
        as (refreshed & w1 & evs & -> & Htrace & _ & Hapi & Hposts).
      destruct refreshed as [r|].
      * match goal with
        | |- context [axios env ?t ?q w1] =>
            destruct (axios_trace env t q w1) as [-> _];
            exists (evs ++ [ApiCall q])%list
        end.
        rewrite Htrace, <- app_assoc. split; [done|].
        unfold token_posts in *. rewrite filter_app, length_app. simpl.
        split; [lia|]. right. by eexists _, _.
      * exists evs. split; [done|]. split; [done|]. by left.
    + rewrite (call_fresh env user endpoint method body w td Hget);
        [|lia].
      match goal with
      | |- context [axios env ?t ?q w] =>
          destruct (axios_trace env t q w) as [-> _];
          exists [ApiCall q]
      end.
      split; [done|]. split; [unfold token_posts; simpl; lia|].
      right. by eexists [], _.
  - rewrite (call_unauthenticated env user endpoint method body w Hget).
    exists []. rewrite app_nil_r. split; [done|].
    split; [unfold token_posts; simpl; lia|]. by left.
Qed.

(** X10: a call throws ["User is not authenticated with Salesforce."]
    exactly when [getTokenData] returns nothing for the user, and then it
    has sent nothing and changed nothing.  This is the case whenever the
    Redis client is not ready, even for a user whose record is in Redis. *)
Theorem X10_unauthenticated_iff_no_record
    (env : Env) (user endpoint : string) (method : Method)
    (body : option string) (w : World) :
  ((makeSalesforceApiCall env user endpoint method body w).1
   = Abrupt (JsError "User is not authenticated with Salesforce.")
   ↔ (getTokenData user w).1 = Normal None)
  ∧ ((getTokenData user w).1 = Normal None →
     (makeSalesforceApiCall env user endpoint method body w).2 = w)
  ∧ (ready (redis w) = false → (getTokenData user w).1 = Normal None).
Proof.
  destruct (getTokenData_total user w) as [[td|] Hget]; rewrite Hget; simpl.
  - split; [|split; [done|]].
    + split; [|done].
      destruct (Z.lt_ge_cases (expiresAt td) (now w + 30000)) as [Hsoon|Hfresh].
      * rewrite (call_expiring env user endpoint method body w td Hget Hsoon).
        destruct (refresh_trace env user w) as (refreshed & w1 & evs & -> & _).
        destruct refreshed as [r|]; [|done].
        unfold axios, settle.
        destruct (api_server _ _ _ _) as [latency [st answer|]];
          destruct (timed_out _ _); try done.
        by destruct ((200 <=? st) && (st <? 300)).
      * rewrite (call_fresh env user endpoint method body w td Hget); [|lia].
        unfold axios, settle.
        destruct (api_server _ _ _ _) as [latency [st answer|]];
          destruct (timed_out _ _); try done.
        by destruct ((200 <=? st) && (st <? 300)).
    + intros Hdown. by rewrite getTokenData_down in Hget.
  - rewrite (call_unauthenticated env user endpoint method body w Hget).
    by repeat split.
Qed.

Lemma X10_unauthenticated_iff_no_record_witness :
  let env := scripted [] [] in
  let w := set_ready false (holding record1) in
  ready (redis w) = false
  ∧ payload <$> entries (redis w) !! key "u1" = Some record1
  ∧ makeSalesforceApiCall env "u1" "/services/oauth2/userinfo" GET None w
    = (Abrupt (JsError "User is not authenticated with Salesforce."), w).
Proof.
  intros env w.
  destruct (X10_unauthenticated_iff_no_record env "u1"
              "/services/oauth2/userinfo" GET None w)
    as ([_ Hthrows] & Hworld & Hdown).
  assert (ready (redis w) = false) as Hready by reflexivity.
  split; [exact Hready|]. split; [reflexivity|].
  rewrite (surjective_pairing (makeSalesforceApiCall _ _ _ _ _ _)).
  by rewrite (Hthrows (Hdown Hready)), (Hworld (Hdown Hready)).
Defined.

End LiveCallMore.


(** ** Calls over the in-memory token store, continued *)

Section MemoryMore.
Import SalesforceLiveMemory Fixtures.

(** The call, case by case on its first request. *)
Lemma memory_call_cases (env : Env) (user endpoint : string) (method : Method)
    (body : option string) (w : World) (td : StampedTokenData) :
  liveTokenStore w !! user = Some td →
  makeSalesforceApiCall env user endpoint method body w
  = match makeRequest env endpoint method body
            (stampedAccessToken td) (stampedInstanceUrl td) w with
    | (Normal response, w1) => (Normal response, w1)
    | (Abrupt err, w1) =>
        if is_unauthorized err
        then
          match refreshAccessToken env user
                  (emit (Console log
                           ("Access token expired, attempting refresh for user: "
                            +:+ user)) w1) with
          | (Normal (Some r), w2) =>
              match makeRequest env endpoint method body
                      (stampedAccessToken r) (stampedInstanceUrl r) w2 with
              | (Normal response, w3) => (Normal response, w3)
              | (Abrupt e, w3) =>
                  (Abrupt e,
                   emit (Console error
                           "API call failed even after token refresh:") w3)
              end
          | (Normal None, w2) =>
              (Abrupt (JsError
                 "Failed to refresh access token. Please re-authenticate."), w2)
          | (Abrupt e, w2) => (Abrupt e, w2)
          end
        else (Abrupt err, w1)
    end.
Proof.
  intros Hstored. unfold makeSalesforceApiCall. rewrite run_bind.
  unfold gets at 1. rewrite Hstored. cbn iota beta. unfold try_catch at 1.
  destruct (makeRequest _ _ _ _ _ _ w) as [[response|err] w1]; [done|].
  destruct (is_unauthorized err); [|done].
  rewrite run_bind. unfold console at 1, modify at 1. cbn iota beta.
  rewrite run_bind.
  by destruct (refreshAccessToken env user _) as [[[r|]|e] w2].
Qed.

(** A request leaves every token record alone. *)
Lemma makeRequest_stores (env : Env) (endpoint : string) (method : Method)
    (body accessToken instanceUrl : option string) (w : World) :
  same_tokens w (makeRequest env endpoint method body accessToken instanceUrl w).2.
Proof.
  unfold makeRequest. run.
  match goal with
  | |- context [settle ?t ?r ?w0] =>
      pose proof (settle_stores t r w0) as (_ & Hr & Ht & Hl & _)
  end.
  by repeat split.
Qed.

(** One call of the in-memory client: at most two API requests, at most
    one request to the token endpoint. *)
Lemma memory_call_bounded
    (env : Env) (user endpoint : string) (method : Method)
    (body : option string) (w : World) :
  ∃ evs,
    trace (makeSalesforceApiCall env user endpoint method body w).2
    = (trace w ++ evs)%list
    ∧ (api_calls evs ≤ 2)%nat
    ∧ (token_posts evs ≤ 1)%nat.
Proof.
  destruct (liveTokenStore w !! user) as [td|] eqn:Hstored.
  - rewrite (memory_call_cases env user endpoint method body w td Hstored).
    pose proof (makeRequest_trace env endpoint method body
                  (stampedAccessToken td) (stampedInstanceUrl td) w) as Hfirst.
    destruct (makeRequest _ _ _ _ _ _ w) as [[response|err] w1];
      simpl in Hfirst.
    { eexists. split; [exact Hfirst|]. unfold api_calls, token_posts. simpl. lia. }
    destruct (is_unauthorized err).
    2:{ eexists. split; [exact Hfirst|]. unfold api_calls, token_posts.
        simpl. lia. }
    match goal with
    | |- context [refreshAccessToken env user ?wa] =>
        destruct (memory_refresh_trace env user wa)
          as (refreshed & w2 & revs & -> & Htrace & Hnoapi & Hposts)
    end.
    simpl in Htrace. rewrite Hfirst, <- !app_assoc in Htrace.
    destruct refreshed as [r|].
    + pose proof (makeRequest_trace env endpoint method body
                    (stampedAccessToken r) (stampedInstanceUrl r) w2) as Hretry.
      destruct (makeRequest _ _ _ _ _ _ w2) as [[response|e] w3];
        simpl in Hretry; eexists; simpl;
        rewrite Hretry, Htrace, <- !app_assoc;
        (split; [reflexivity|]);
        unfold token_posts, api_calls in *;
        rewrite !filter_app, !length_app, ?Hnoapi; simpl; lia.
    + eexists. split; [exact Htrace|].
      unfold token_posts, api_calls in *.
      rewrite !filter_app, !length_app, ?Hnoapi. simpl. lia.
  - unfold makeSalesforceApiCall. rewrite run_bind. unfold gets at 1.
    rewrite Hstored. exists []. rewrite app_nil_r.
    split; [done|]. unfold api_calls, token_posts. simpl. lia.
Qed.

(** X11: whatever the store holds and whatever the provider answers, one
    call of the in-memory client sends at most two API requests and at most
    one request to the token endpoint. *)
Theorem X11_memory_call_is_bounded
    (env : Env) (user endpoint : string) (method : Method)
    (body : option string) (w : World) :
  ∃ evs,
    trace (makeSalesforceApiCall env user endpoint method body w).2
    = (trace w ++ evs)%list
    ∧ (api_calls evs ≤ 2)%nat
    ∧ (token_posts evs ≤ 1)%nat.
Proof. apply memory_call_bounded. Qed.

(** X12: when the first request of a call ends in anything but a [401]
    answer (it succeeds, it is answered with another status, it times out
    or gets no answer), the call ends in exactly that: the response is
    returned or the error is thrown as it is, after one API request, with no
    refresh and no change to any token record. *)
Theorem X12_other_outcomes_pass_through
    (env : Env) (user endpoint : string) (method : Method)
    (body : option string) (w : World) (td : StampedTokenData) :
  liveTokenStore w !! user = Some td →
  let first :=
    makeRequest env endpoint method body
      (stampedAccessToken td) (stampedInstanceUrl td) w in
  (∀ err, first.1 = Abrupt err → is_unauthorized err = false) →
  makeSalesforceApiCall env user endpoint method body w = first
  ∧ trace first.2
    = (trace w
       ++ [Console log ("Making Salesforce API call: " +:+ show_method method
                        +:+ " " +:+ interpolate (stampedInstanceUrl td)
                        +:+ endpoint);
           ApiCall (bearer_request method
                      (interpolate (stampedInstanceUrl td) +:+ endpoint)
                      body (stampedAccessToken td))])%list
  ∧ same_tokens w first.2.
Proof.
  intros Hstored first Hother.
  split; [|split; [apply makeRequest_trace|apply makeRequest_stores]].
  rewrite (memory_call_cases env user endpoint method body w td Hstored).
  subst first.
  destruct (makeRequest _ _ _ _ _ _ w) as [[response|err] w1]; [done|].
  by rewrite (Hother err).
Qed.

Lemma X12_other_outcomes_pass_through_witness :
  let env := scripted [503] [] in
  let first :=
    makeRequest env "/services/oauth2/userinfo" GET None
      (stampedAccessToken stamped1) (stampedInstanceUrl stamped1) remembering in
  liveTokenStore remembering !! "u1" = Some stamped1
  ∧ first.1 = Abrupt (AxiosError (Some (503, JText "body")))
  ∧ makeSalesforceApiCall env "u1" "/services/oauth2/userinfo" GET None
      remembering = first
  ∧ same_tokens remembering first.2.
Proof.
  intros env first.
  assert (first.1 = Abrupt (AxiosError (Some (503, JText "body")))) as Hfirst
    by reflexivity.
  split; [reflexivity|]. split; [exact Hfirst|].
  destruct (X12_other_outcomes_pass_through env "u1"
              "/services/oauth2/userinfo" GET None remembering stamped1)
    as (Hcall & _ & Hsame); [reflexivity| |by split].
  intros err Herr. fold first in Herr. rewrite Hfirst in Herr.
  by injection Herr as <-.
Defined.



(** X14: the in-memory refresh writes only on success and only the user's
    own entry.  When it returns [null] every token record is as it was; when
    it returns a record, the in-memory store is the old one with that record
    under the user's key, stamped with the time of the provider's answer,
    and Redis and the authorization route's store are untouched. *)
Theorem X14_memory_refresh_writes_on_success_only
    (env : Env) (user : string) (w : World) :
  ∃ refreshed w',
    refreshAccessToken env user w = (Normal refreshed, w')
    ∧ match refreshed with
      | None => same_tokens w w'
      | Some r =>
          liveTokenStore w' = <[user := r]> (liveTokenStore w)
          ∧ stampedTimestamp r = now w'
          ∧ redis w' = redis w ∧ tokenStore w' = tokenStore w
      end.
Proof.
  unfold refreshAccessToken. run.
  destruct (liveTokenStore w !! user) as [td|];
    [destruct (truthy (stampedRefreshToken td))|];
    try (by eexists _, _).
  match goal with
  | |- context [settle ?t ?r ?w0] =>
      pose proof (settle_stores t r w0) as (_ & Hr & Ht & Hl & _)
  end.
  destruct (settle _ _ _) as [[response|e] w1]; simpl in *.
  - eexists _, _. split; [done|]. simpl. by rewrite Hl, Hr, Ht.
  - destruct (is_axios_error e); eexists _, _; by split.
Qed.

End MemoryMore.


(** ** The authorization route, continued *)

Section AuthMore.
Import SalesforceAuth Fixtures.

(** A callback that passes the session check is the exchange, run for the
    bound user after the session has been deleted. *)
Lemma callback_present (env : Env) (code state : string) (s : Session)
    (w : World) :
  code ≠ "" → state ≠ "" → sessionStore w !! state = Some s →
  callback env (returning code state) w
  = exchange env (userId s) code
      (with_sessionStore (delete state (sessionStore w)) w).
Proof.
  intros Hc Hs Hsession. unfold callback. rewrite run_bind.
  by rewrite (completeCallback_present code state s w Hc Hs Hsession).
Qed.

(** The exchange, when the provider answers with a [2xx] status. *)
Lemma exchange_answered (env : Env) (user code : string) (w : World)
    (latency st : Z) (body : Json) :
  token_server env (trace w) (now w) (authorization_code code)
  = (latency, Responded st body) →
  200 ≤ st < 300 →
  exchange env user code w
  = let fields := token_fields body in
    let w1 := advance latency (emit (TokenPost (authorization_code code)) w) in
    if truthy (access_token fields) && truthy (instance_url fields)
    then (Normal (JsonReply 200
                    (ConnectedBody "Salesforce connected successfully"
                       (instance_url fields) (now w + latency))),
          with_tokenStore
            (<[user := {| accessToken := access_token fields;
                          refreshToken := refresh_token fields;
                          instanceUrl := instance_url fields;
                          expiresAt :=
                            now w + latency
                            + parse_expires_in (expires_in fields) * 1000
                            - OAUTH_EXPIRY_BUFFER |}]> (tokenStore w)) w1)
    else (Normal (JsonReply 500 (ErrorBody "Callback error")), w1).
Proof.
  intros Hreply Hok. unfold exchange. run. rewrite Hreply.
  unfold settle, timed_out.
  destruct (Z.leb_spec 200 st); [|lia].
  destruct (Z.ltb_spec st 300); [|lia]. simpl.
  by destruct (truthy (access_token (token_fields body))
               && truthy (instance_url (token_fields body))).
Qed.

(** X15: a request without a user ([userId] absent or empty) is answered
    [400 "Missing userId"] by [/initiate], [/status] and [/disconnect] alike,
    and nothing happens: no state is drawn, no session or record is created
    or deleted. *)
Theorem X15_missing_user_is_refused
    (env : Env) (q_userId : option string) (w : World) :
  nonempty q_userId = None →
  initiate env q_userId w
  = (Normal (JsonReply 400 (ErrorBody "Missing userId")), w)
  ∧ connectionStatus q_userId w
    = (Normal (JsonReply 400 (ErrorBody "Missing userId")), w)
  ∧ disconnect q_userId w
    = (Normal (JsonReply 400 (ErrorBody "Missing userId")), w).
Proof.
  intros Hmissing. unfold initiate, connectionStatus, disconnect.
  by rewrite Hmissing.
Qed.

Lemma X15_missing_user_is_refused_witness :
  nonempty (Some "") = None
  ∧ initiate (scripted [] []) (Some "") connected
    = (Normal (JsonReply 400 (ErrorBody "Missing userId")), connected)
  ∧ connectionStatus (Some "") connected
    = (Normal (JsonReply 400 (ErrorBody "Missing userId")), connected)
  ∧ disconnect (Some "") connected
    = (Normal (JsonReply 400 (ErrorBody "Missing userId")), connected).
Proof.
  split; [reflexivity|].
  apply (X15_missing_user_is_refused (scripted [] []) (Some "") connected).
  reflexivity.
Defined.



(** X17: a failed exchange burns the state.  When the callback passes the
    session check and the provider then fails the exchange, the session is
    gone all the same: a second callback with the same state, whatever its
    code, is refused with [InvalidState]. *)
Theorem X17_failed_exchange_burns_state
    (env : Env) (code again state : string) (s : Session) (w : World) :
  code ≠ "" → again ≠ "" → state ≠ "" →
  sessionStore w !! state = Some s →
  rejected None (token_server env (trace w) (now w) (authorization_code code))
  = true →
  let w' := (callback env (returning code state) w).2 in
  sessionStore w' = delete state (sessionStore w)
  ∧ callback env (returning again state) w' = (Normal InvalidState, w').
Proof.
  intros Hc Ha Hs Hsession Hfail w'. subst w'.
  rewrite (callback_present env code state s w Hc Hs Hsession).
  unfold exchange. run.
  match goal with
  | |- context [settle ?t ?r ?w0] =>
      destruct (settle_rejected t r w0)
        as (resp & w1 & -> & _ & _ & _ & _ & Hsessions)
  end; [exact Hfail|].
  simpl in *. split; [done|].
  unfold callback. rewrite run_bind.
  rewrite completeCallback_absent; [done..|].
  rewrite Hsessions. by rewrite lookup_delete_eq.
Qed.

Lemma X17_failed_exchange_burns_state_witness :
  let env := scripted [] [Responded 400 (JText "invalid_grant")] in
  let S1 := "00000000000000000000000000000000" in
  let w' := (callback env (returning "abc" S1) connected).2 in
  sessionStore connected !! S1 = Some {| userId := "u1"; timestamp := 1000 |}
  ∧ rejected None
      (token_server env (trace connected) (now connected)
         (authorization_code "abc")) = true
  ∧ sessionStore w' = delete S1 (sessionStore connected)
  ∧ callback env (returning "def" S1) w' = (Normal InvalidState, w').
Proof.
  intros env S1 w'. split; [reflexivity|]. split; [reflexivity|].
  apply (X17_failed_exchange_burns_state env "abc" "def" S1
           {| userId := "u1"; timestamp := 1000 |} connected); by vm_compute.
Defined.

(** X18: an answer to the exchange that has a [2xx] status but lacks a
    non-empty [access_token] or [instance_url] is not stored: the callback
    answers [500 "Callback error"] and every token record is as it was. *)
Theorem X18_incomplete_answer_is_not_stored
    (env : Env) (code state : string) (s : Session) (w : World)
    (latency st : Z) (body : Json) :
  code ≠ "" → state ≠ "" → sessionStore w !! state = Some s →
  token_server env (trace w) (now w) (authorization_code code)
  = (latency, Responded st body) →
  200 ≤ st < 300 →
  truthy (access_token (token_fields body))
  && truthy (instance_url (token_fields body)) = false →
  (callback env (returning code state) w).1
  = Normal (JsonReply 500 (ErrorBody "Callback error"))
  ∧ same_tokens w (callback env (returning code state) w).2.
Proof.
  intros Hc Hs Hsession Hreply Hok Hlacking.
  rewrite (callback_present env code state s w Hc Hs Hsession).
  rewrite (exchange_answered env (userId s) code
             (with_sessionStore (delete state (sessionStore w)) w)
             latency st body Hreply Hok).
  cbv zeta. by rewrite Hlacking.
Qed.

Lemma X18_incomplete_answer_is_not_stored_witness :
  let answer :=
    JToken {| access_token := Some "A2"; refresh_token := Some "R2";
              instance_url := None; expires_in := Some 3600 |} in
  let env := scripted [] [Responded 200 answer] in
  let S1 := "00000000000000000000000000000000" in
  sessionStore connected !! S1 = Some {| userId := "u1"; timestamp := 1000 |}
  ∧ token_server env (trace connected) (now connected)
      (authorization_code "abc") = (80, Responded 200 answer)
  ∧ (callback env (returning "abc" S1) connected).1
    = Normal (JsonReply 500 (ErrorBody "Callback error"))
  ∧ same_tokens connected (callback env (returning "abc" S1) connected).2.
Proof.
  intros answer env S1. split; [reflexivity|]. split; [reflexivity|].
  apply (X18_incomplete_answer_is_not_stored env "abc" S1
           {| userId := "u1"; timestamp := 1000 |} connected 80 200 answer);
    by vm_compute.
Defined.

End AuthMore.


Section AuthFlowMore.
Import SalesforceAuth Fixtures.





(** X21: the sweep keeps every session that is at most ten minutes old
    (exactly ten minutes included) and only those, and touches nothing
    else; a callback for a session it has kept still hands over the bound
    user. *)
Theorem X21_sweep_keeps_recent_sessions
    (code state : string) (s : Session) (w : World) :
  code ≠ "" → state ≠ "" →
  sessionStore w !! state = Some s →
  now w - timestamp s ≤ tenMinutes →
  ∃ w',
    cleanupExpiredSessions w = (Normal tt, w')
    ∧ (∀ k v, sessionStore w' !! k = Some v
              ↔ sessionStore w !! k = Some v ∧ now w - timestamp v ≤ tenMinutes)
    ∧ tokenStore w' = tokenStore w ∧ redis w' = redis w
    ∧ trace w' = trace w
    ∧ cleanupExpiredSessions w' = (Normal tt, w')
    ∧ (completeCallback (returning code state) w').1
      = Normal (inr (userId s, code)).
Proof.
  intros Hc Hs Hsession Hrecent. eexists.
  split; [apply cleanupExpiredSessions_run|]. simpl.
  assert (∀ k v,
            filter (λ entry : string * Session,
                      ¬ (now w - timestamp entry.2 > tenMinutes))
                   (sessionStore w) !! k = Some v
            ↔ sessionStore w !! k = Some v
              ∧ now w - timestamp v ≤ tenMinutes) as Hkept.
  { intros k v. rewrite map_lookup_filter_Some. simpl. split.
    - intros [Hk Hv]. split; [done|lia].
    - intros [Hk Hv]. split; [done|lia]. }
  split; [exact Hkept|]. repeat (split; [done|]). split.
  - rewrite cleanupExpiredSessions_run. simpl. f_equal.
    unfold with_sessionStore. simpl. f_equal.
    apply map_eq. intros k. apply option_eq. intros v.
    rewrite map_lookup_filter_Some, !Hkept. simpl. split.
    + by intros [[Hk Hv] _].
    + intros [Hk Hv]. split; [done|lia].
  - rewrite (completeCallback_present code state s); [done..|].
    simpl. by apply Hkept.
Qed.

Lemma X21_sweep_keeps_recent_sessions_witness :
  let w := advance 600000 connected in
  let S1 := "00000000000000000000000000000000" in
  sessionStore w !! S1 = Some {| userId := "u1"; timestamp := 1000 |}
  ∧ now w - 1000 ≤ tenMinutes
  ∧ ∃ w',
      cleanupExpiredSessions w = (Normal tt, w')
      ∧ (completeCallback (returning "abc" S1) w').1
        = Normal (inr ("u1", "abc")).
Proof.
  intros w S1. split; [reflexivity|]. split; [by vm_compute|].
  destruct (X21_sweep_keeps_recent_sessions "abc" S1
              {| userId := "u1"; timestamp := 1000 |} w)
    as (w' & Hrun & _ & _ & _ & _ & _ & Hcallback);
    [by vm_compute..|reflexivity|by vm_compute|].
  by exists w'.
Defined.

(** X22: how a failed exchange is reported.  When the provider answers the
    exchange with a status outside [2xx], the callback answers with that
    very status (and [500] if the status is [0]); when the provider does
    not answer at all, the callback answers [500].  In both cases the error
    is ["Token exchange failed"]. *)
Theorem X22_exchange_failure_status
    (env : Env) (code state : string) (s : Session) (w : World)
    (latency : Z) (outcome : Outcome) :
  code ≠ "" → state ≠ "" → sessionStore w !! state = Some s →
  token_server env (trace w) (now w) (authorization_code code)
  = (latency, outcome) →
  rejected None (latency, outcome) = true →
  (callback env (returning code state) w).1
  = Normal (JsonReply
              match outcome with
              | Responded st _ => if st =? 0 then 500 else st
              | NoResponse => 500
              end
              (ErrorBody "Token exchange failed")).
Proof.
  intros Hc Hs Hsession Hreply Hfail.
  rewrite (callback_present env code state s w Hc Hs Hsession).
  unfold exchange. run. simpl trace. simpl now. rewrite Hreply.
  unfold rejected in Hfail. simpl in Hfail. unfold settle. simpl.
  destruct outcome as [st body|]; [|done].
  by destruct ((200 <=? st) && (st <? 300)).
Qed.

Lemma X22_exchange_failure_status_witness :
  let env := scripted [] [Responded 400 (JText "invalid_grant")] in
  let S1 := "00000000000000000000000000000000" in
  sessionStore connected !! S1 = Some {| userId := "u1"; timestamp := 1000 |}
  ∧ token_server env (trace connected) (now connected)
      (authorization_code "abc")
    = (80, Responded 400 (JText "invalid_grant"))
  ∧ (callback env (returning "abc" S1) connected).1
    = Normal (JsonReply 400 (ErrorBody "Token exchange failed")).
Proof.
  intros env S1. split; [reflexivity|]. split; [reflexivity|].
  apply (X22_exchange_failure_status env "abc" S1
           {| userId := "u1"; timestamp := 1000 |} connected 80
           (Responded 400 (JText "invalid_grant"))); by vm_compute.
Defined.

End AuthFlowMore.


(** ** The authorization route with sessions keyed by user *)

Section AuthByUserFacts.
Import SalesforceAuth.
Import SalesforceAuthByUser.

Variable href : string → list (string * string) → string.

(** What this route's [GET /initiate] does: the session of the user, if
    any, is replaced by one holding the newly drawn state. *)
Lemma initiate_by_user_run (env : Env) (q_userId : option string)
    (stores : Stores) (w : World) :
  ∃ line,
    SalesforceAuthByUser.initiate href env q_userId stores w
    = (Normal (authorizeUrl env (toHex (block env (draws w) 16)),
               {| sessions :=
                    <[userOf q_userId :=
                        {| state := toHex (block env (draws w) 16);
                           SalesforceAuthByUser.timestamp := now w |}]>
                      (sessions stores);
                  tokens := tokens stores |}),
       emit (Console log line)
         (emit (Console log ("Initiating Salesforce OAuth for user: "
                             +:+ userOf q_userId)) (drawn w))).
Proof.
  unfold SalesforceAuthByUser.initiate, randomBytes. run. by eexists.
Qed.

(** A callback whose state is not the one held for ['default-user'] is
    refused, and the stores are as they were. *)
Lemma callback_by_user_refused (env : Env) (code given : string)
    (stores : Stores) (w : World) :
  code ≠ "" → given ≠ "" →
  (∀ held, sessions stores !! "default-user" = Some held → state held ≠ given) →
  SalesforceAuthByUser.callback env (returning code given) stores w
  = (Normal (JsonReply 400 (ErrorBody "Invalid state parameter"), stores),
     emit (Console error "Invalid state parameter") w).
Proof.
  intros Hc Hg Hother. unfold SalesforceAuthByUser.callback, returning. simpl.
  rewrite !nonempty_Some by done.
  destruct (sessions stores !! "default-user") as [held|]; [|done].
  destruct (String.eqb_spec (state held) given) as [Heq|]; [|done].
  by destruct (Hother held).
Qed.

(** A callback whose state is the one held for ['default-user'], with a
    provider that grants the code: the session is consumed and the record
    written under ['default-user']. *)
Lemma callback_by_user_granted (env : Env) (code given : string)
    (stores : Stores) (w : World) (held : PendingSession)
    (latency st : Z) (fields : TokenResponse) :
  code ≠ "" → given ≠ "" →
  sessions stores !! "default-user" = Some held → state held = given →
  token_server env
    (trace w ++ [Console log "Exchanging authorization code for tokens..."])
    (now w) (authorization_code code)
  = (latency, Responded st (JToken fields)) →
  latency < 10000 → 200 ≤ st < 300 →
  truthy (access_token fields) && truthy (instance_url fields) = true →
  ∃ w',
    SalesforceAuthByUser.callback env (returning code given) stores w
    = (Normal (JsonReply 200
                 (ConnectedBody "Salesforce connected successfully"
                    (instance_url fields) (now w + latency)),
               {| sessions := delete "default-user" (sessions stores);
                  tokens :=
                    <["default-user" :=
                        {| stampedAccessToken := access_token fields;
                           stampedRefreshToken := refresh_token fields;
                           stampedInstanceUrl := instance_url fields;
                           stampedTimestamp := now w + latency |}]>
                      (tokens stores) |}), w').
Proof.
  intros Hc Hg Hheld Hstate Hreply Hfast Hok Htruthy.
  unfold SalesforceAuthByUser.callback, returning. simpl.
  rewrite !nonempty_Some by done. rewrite Hheld.
  destruct (String.eqb_spec (state held) given) as [_|]; [|done].
  run. simpl trace. simpl now. rewrite Hreply.
  unfold settle, timed_out.
  destruct (Z.leb_spec 10000 latency); [lia|].
  destruct (Z.leb_spec 200 st); [|lia].
  destruct (Z.ltb_spec st 300); [|lia]. simpl.
  rewrite Htruthy. by eexists.
Qed.

End AuthByUserFacts.


Section AuthByUserClaims.
Import SalesforceAuth Fixtures.
Import SalesforceAuthByUser.

(** X23: in the route whose sessions are keyed by user, a second
    [initiate] for the same user replaces the first: only the second state
    is held afterwards, and a callback carrying the first state is refused
    with ["Invalid state parameter"], leaving the stores as they are. *)
Theorem X23_second_initiate_replaces_first
    (href : string → list (string * string) → string)
    (env : Env) (q_userId : option string) (code : string)
    (stores : Stores) (w : World) :
  userOf q_userId = "default-user" → code ≠ "" →
  block env (draws w) 16 ≠ block env (S (draws w)) 16 →
  ∃ S1 S2 stores1 stores2 w1 w2,
    S1 ≠ S2
    ∧ SalesforceAuthByUser.initiate href env q_userId stores w
      = (Normal (authorizeUrl env S1, stores1), w1)
    ∧ sessions stores1 !! "default-user"
      = Some {| state := S1; SalesforceAuthByUser.timestamp := now w |}
    ∧ SalesforceAuthByUser.initiate href env q_userId stores1 w1
      = (Normal (authorizeUrl env S2, stores2), w2)
    ∧ sessions stores2 !! "default-user"
      = Some {| state := S2; SalesforceAuthByUser.timestamp := now w1 |}
    ∧ SalesforceAuthByUser.callback env (returning code S1) stores2 w2
      = (Normal (JsonReply 400 (ErrorBody "Invalid state parameter"), stores2),
         emit (Console error "Invalid state parameter") w2).
Proof.
  intros Huser Hc Hdraw.
  set (S1 := toHex (block env (draws w) 16)).
  set (S2 := toHex (block env (S (draws w)) 16)).
  assert (S1 ≠ S2) as Hne by (intros Heq; by apply Hdraw, toHex_inj).
  assert (S1 ≠ "") as Hn1 by apply state_nonempty.
  unfold SalesforceAuthByUser.initiate, randomBytes. run. simpl.
  rewrite Huser. fold S1 S2.
  eexists S1, S2, _, _, _, _. split; [done|]. split; [done|].
  split; [simpl; by rewrite lookup_insert_eq|]. split; [done|].
  split; [simpl; by rewrite lookup_insert_eq|].
  apply callback_by_user_refused; [done..|].
  simpl. intros held. rewrite lookup_insert_eq. intros [= <-]. simpl.
  intros Heq. by apply Hne.
Qed.

Lemma X23_second_initiate_replaces_first_witness :
  let href := λ (location : string) (_ : list (string * string)), location in
  let env := scripted [] [] in
  let none := {| sessions := ∅; tokens := ∅ |} in
  userOf None = "default-user" ∧ "abc" ≠ ""
  ∧ block env 0 16 ≠ block env 1 16
  ∧ ∃ S1 S2 stores1 stores2 w1 w2,
      S1 ≠ S2
      ∧ SalesforceAuthByUser.initiate href env None none (blank true)
        = (Normal (authorizeUrl env S1, stores1), w1)
      ∧ sessions stores1 !! "default-user"
        = Some {| state := S1; SalesforceAuthByUser.timestamp := 1000 |}
      ∧ SalesforceAuthByUser.initiate href env None stores1 w1
        = (Normal (authorizeUrl env S2, stores2), w2)
      ∧ sessions stores2 !! "default-user"
        = Some {| state := S2; SalesforceAuthByUser.timestamp := now w1 |}
      ∧ SalesforceAuthByUser.callback env (returning "abc" S1) stores2 w2
        = (Normal (JsonReply 400 (ErrorBody "Invalid state parameter"),
                   stores2),
           emit (Console error "Invalid state parameter") w2).
Proof.
  intros href env none.
  split; [reflexivity|]. split; [by vm_compute|]. split; [by vm_compute|].
  apply (X23_second_initiate_replaces_first href env None "abc" none
           (blank true)); by vm_compute.
Defined.

(** X24: in the route whose sessions are keyed by user, the callback only
    ever looks at the session of ['default-user'].  A flow initiated for any
    other user cannot be completed: with no session pending for
    ['default-user'], the callback carrying the very state that was issued
    is refused with ["Invalid state parameter"], and the user's session
    stays where it is. *)
Theorem X24_callback_serves_default_user_only
    (href : string → list (string * string) → string)
    (env : Env) (user code : string) (stores : Stores) (w : World) :
  user ≠ "" → user ≠ "default-user" → code ≠ "" →
  sessions stores !! "default-user" = None →
  ∃ S1 stores1 w1,
    SalesforceAuthByUser.initiate href env (Some user) stores w
    = (Normal (authorizeUrl env S1, stores1), w1)
    ∧ sessions stores1 !! user
      = Some {| state := S1; SalesforceAuthByUser.timestamp := now w |}
    ∧ SalesforceAuthByUser.callback env (returning code S1) stores1 w1
      = (Normal (JsonReply 400 (ErrorBody "Invalid state parameter"), stores1),
         emit (Console error "Invalid state parameter") w1).
Proof.
  intros Hu Hother Hc Hnone.
  set (S1 := toHex (block env (draws w) 16)).
  assert (S1 ≠ "") as Hn1 by apply state_nonempty.
  unfold SalesforceAuthByUser.initiate, randomBytes. run. simpl.
  unfold userOf. rewrite nonempty_Some by done. simpl. fold S1.
  eexists S1, _, _. split; [done|].
  split; [simpl; by rewrite lookup_insert_eq|].
  apply callback_by_user_refused; [done..|].
  simpl. intros held. rewrite lookup_insert_ne by done. by rewrite Hnone.
Qed.

Lemma X24_callback_serves_default_user_only_witness :
  let href := λ (location : string) (_ : list (string * string)), location in
  let env := scripted [] [] in
  let none := {| sessions := ∅; tokens := ∅ |} in
  "u1" ≠ "" ∧ "u1" ≠ "default-user" ∧ "abc" ≠ ""
  ∧ sessions none !! "default-user" = None
  ∧ ∃ S1 stores1 w1,
      SalesforceAuthByUser.initiate href env (Some "u1") none (blank true)
      = (Normal (authorizeUrl env S1, stores1), w1)
      ∧ sessions stores1 !! "u1"
        = Some {| state := S1; SalesforceAuthByUser.timestamp := 1000 |}
      ∧ SalesforceAuthByUser.callback env (returning "abc" S1) stores1 w1
        = (Normal (JsonReply 400 (ErrorBody "Invalid state parameter"),
                   stores1),
           emit (Console error "Invalid state parameter") w1).
Proof.
  intros href env none.
  split; [by vm_compute|]. split; [by vm_compute|]. split; [by vm_compute|].
  split; [reflexivity|].
  apply (X24_callback_serves_default_user_only href env "u1" "abc" none
           (blank true)); by vm_compute.
Defined.

(** X25: in the route whose sessions are keyed by user, a flow for
    ['default-user'] completes: when the provider grants the code within
    the ten-second timeout, the callback carrying the issued state answers
    [200], consumes the session, and writes the record under
    ['default-user'], stamped with the time of the answer; no other token
    entry changes. *)
Theorem X25_default_user_flow_completes
    (href : string → list (string * string) → string)
    (env : Env) (q_userId : option string) (code : string)
    (stores : Stores) (w : World)
    (latency st : Z) (fields : TokenResponse) :
  userOf q_userId = "default-user" → code ≠ "" →
  let started := SalesforceAuthByUser.initiate href env q_userId stores w in
  token_server env
    (trace started.2 ++ [Console log "Exchanging authorization code for tokens..."])
    (now w) (authorization_code code)
  = (latency, Responded st (JToken fields)) →
  latency < 10000 → 200 ≤ st < 300 →
  truthy (access_token fields) && truthy (instance_url fields) = true →
  ∃ S1 stores1 w1 stores2 w2,
    started = (Normal (authorizeUrl env S1, stores1), w1)
    ∧ SalesforceAuthByUser.callback env (returning code S1) stores1 w1
      = (Normal (JsonReply 200
                   (ConnectedBody "Salesforce connected successfully"
                      (instance_url fields) (now w + latency)),
                 stores2), w2)
    ∧ sessions stores2 !! "default-user" = None
    ∧ tokens stores2
      = <["default-user" :=
            {| stampedAccessToken := access_token fields;
               stampedRefreshToken := refresh_token fields;
               stampedInstanceUrl := instance_url fields;
               stampedTimestamp := now w + latency |}]> (tokens stores).
Proof.
  intros Huser Hc started Hreply Hfast Hok Htruthy.
  set (S1 := toHex (block env (draws w) 16)).
  assert (S1 ≠ "") as Hn1 by apply state_nonempty.
  subst started.
  destruct (initiate_by_user_run href env q_userId stores w) as [line Hinit].
  rewrite Huser in Hinit. fold S1 in Hinit. rewrite Hinit in *.
  set (stores1 := {| sessions := _; tokens := tokens stores |}).
  set (w1 := emit (Console log line) _) in *.
  destruct (callback_by_user_granted env code S1 stores1 w1
              {| state := S1; SalesforceAuthByUser.timestamp := now w |}
              latency st fields) as (w2 & Hrun);
    [done|done|subst stores1; simpl; by rewrite lookup_insert_eq|done
    |exact Hreply|done..|].
  exists S1, stores1, w1. eexists _, w2.
  split; [done|]. split; [exact Hrun|]. simpl.
  by rewrite lookup_delete_eq.
Qed.

Lemma X25_default_user_flow_completes_witness :
  let href := λ (location : string) (_ : list (string * string)), location in
  let fields :=
    {| access_token := Some "A1"; refresh_token := Some "R1";
       instance_url := Some "https://x"; expires_in := None |} in
  let env := scripted [] [Responded 200 (JToken fields)] in
  let none := {| sessions := ∅; tokens := ∅ |} in
  let started := SalesforceAuthByUser.initiate href env None none (blank true) in
  userOf None = "default-user" ∧ "abc" ≠ ""
  ∧ token_server env
      (trace started.2
       ++ [Console log "Exchanging authorization code for tokens..."])
      1000 (authorization_code "abc")
    = (80, Responded 200 (JToken fields))
  ∧ ∃ S1 stores1 w1 stores2 w2,
      started = (Normal (authorizeUrl env S1, stores1), w1)
      ∧ SalesforceAuthByUser.callback env (returning "abc" S1) stores1 w1
        = (Normal (JsonReply 200
                     (ConnectedBody "Salesforce connected successfully"
                        (Some "https://x") (1000 + 80)),
                   stores2), w2)
      ∧ sessions stores2 !! "default-user" = None
      ∧ tokens stores2
        = <["default-user" :=
              {| stampedAccessToken := Some "A1";
                 stampedRefreshToken := Some "R1";
                 stampedInstanceUrl := Some "https://x";
                 stampedTimestamp := 1000 + 80 |}]> (tokens none).
Proof.
  intros href fields env none started.
  split; [reflexivity|]. split; [by vm_compute|]. split; [reflexivity|].
  apply (X25_default_user_flow_completes href env None "abc" none (blank true)
           80 200 fields); by vm_compute.
Defined.

End AuthByUserClaims.


(** ** The routes of the live API *)

Section LiveRoutesFacts.
Import TokenStoreService SalesforceLive ProviderData Fixtures.



End LiveRoutesFacts.


Section MemoryRoutesFacts.
Import SalesforceLiveMemory ProviderData Fixtures.
Import SalesforceLiveMemoryRoutes.

(** X27: the [/org] handler over the in-memory store never throws and
    reports the provider's own status.  For the user of the request
    (['default-user'] when none is given): a call that throws an
    [AxiosError] is answered with the status of the provider's response, or
    [500] when there is none; any other exception (no authentication data,
    a failed refresh, an answer without [records]) is answered
    [500 "Internal server error"]; an answer with no first record is
    answered [404]; otherwise the record is returned with the stored
    instance URL. *)
Theorem X27_memory_org_answers
    (records : Json → option (option Organization)) (env : Env)
    (q_userId : option string) (w : World) :
  let user := userOf q_userId in
  let queried :=
    makeSalesforceApiCall env user org_query GET None
      (emit (Console log ("Fetching organization info for user: " +:+ user)) w) in
  let failed := emit (Console error "Error fetching Salesforce org info:")
                  queried.2 in
  SalesforceLiveMemoryRoutes.org records env q_userId w
  = match queried.1 with
    | Abrupt (AxiosError (Some (st, _))) =>
        (Normal (Failure (if st =? 0 then 500 else st)
                   "Failed to fetch organization information"), failed)
    | Abrupt (AxiosError None) =>
        (Normal (Failure 500 "Failed to fetch organization information"),
         failed)
    | Abrupt (JsError _) =>
        (Normal (Failure 500 "Internal server error"), failed)
    | Normal response =>
        match records (data response) with
        | None => (Normal (Failure 500 "Internal server error"), failed)
        | Some None =>
            (Normal (Failure 404 "Organization not found"), queried.2)
        | Some (Some found) =>
            let w' := emit (Console log ("Successfully retrieved org info: "
                                         +:+ interpolate (org_Name found)))
                        queried.2 in
            (Normal (Org found
                       (liveTokenStore w' !! user ≫= stampedInstanceUrl)
                       (now w')), w')
        end
    end.
Proof.
  intros user queried failed. subst user queried failed.
  unfold SalesforceLiveMemoryRoutes.org, fail. unfold try_catch at 1.
  rewrite run_bind. unfold console at 1, modify at 1. cbn iota beta.
  rewrite run_bind.
  destruct (makeSalesforceApiCall env _ org_query _ _ _)
    as [[response|[message|[[st answer]|]]] w1]; try done.
  simpl. by destruct (records (data response)) as [[found|]|].
Qed.

(** The answer to a response that was obtained never throws and sends
    nothing. *)
Lemma respond_run (userinfo : Json → UserInfo) (user : string)
    (response : AxiosResponse) (w : World) :
  ∃ reply line,
    respond userinfo user response w
    = (Normal reply, emit (Console log line) w).
Proof. unfold respond. run. by eexists _, _. Qed.

(** The [/me] handler over the in-memory store, case by case on the calls
    it makes. *)
Lemma memory_me_cases
    (userinfo : Json → UserInfo) (env : Env) (q_userId : option string)
    (w : World) :
  let user := userOf q_userId in
  let call := makeSalesforceApiCall env user in
  let w0 := emit (Console log ("Fetching user info for: " +:+ user)) w in
  let failing :=
    fail "Error fetching Salesforce user info:"
         "Failed to fetch user information" in
  SalesforceLiveMemoryRoutes.me userinfo env q_userId w
  = match call "/services/oauth2/userinfo" GET None w0 with
    | (Normal response, w1) => respond userinfo user response w1
    | (Abrupt e1, w1) =>
        match call "/services/oauth2/userinfo" GET None
                (emit (Console log
                         "Userinfo endpoint failed, trying User sobject...")
                   w1) with
        | (Normal validation, w2) =>
            match call ("/services/data/v58.0/sobjects/User/"
                        +:+ interpolate
                              (user_id (userinfo (data validation))))
                    GET None w2 with
            | (Normal response, w3) => respond userinfo user response w3
            | (Abrupt _, w3) => failing e1 w3
            end
        | (Abrupt _, w2) => failing e1 w2
        end
    end.
Proof.
  intros user call w0 failing. subst user call w0 failing.
  unfold SalesforceLiveMemoryRoutes.me. unfold try_catch at 1.
  rewrite run_bind. unfold console at 1, modify at 1. cbn iota beta.
  rewrite run_bind. unfold try_catch at 1.
  destruct (makeSalesforceApiCall env _ "/services/oauth2/userinfo" _ _ _)
    as [[response|e1] w1].
  { destruct (respond_run userinfo (userOf q_userId) response w1)
      as (reply & line & Hrun). by rewrite Hrun. }
  rewrite run_bind. unfold console at 1, modify at 1. cbn iota beta.
  unfold try_catch at 1. rewrite run_bind.
  destruct (makeSalesforceApiCall env _ "/services/oauth2/userinfo" _ _ _)
    as [[validation|e2] w2]; [|done].
  destruct (makeSalesforceApiCall env _ _ _ _ w2) as [[response|e3] w3];
    [|done].
  destruct (respond_run userinfo (userOf q_userId) response w3)
    as (reply & line & Hrun). by rewrite Hrun.
Qed.

(** The [catch] of the handlers never throws and sends nothing. *)
Lemma fail_run (line failed : string) (e : Thrown) (w : World) :
  ∃ reply, fail line failed e w = (Normal reply, emit (Console error line) w).
Proof. unfold fail. run. destruct e; by eexists. Qed.

(** X28: the [/me] handler over the in-memory store never throws, and
    whatever the provider answers it sends at most six API requests and at
    most three requests to the token endpoint: up to three calls (the
    user-info endpoint, the user-info endpoint again, the User sobject),
    each with its one possible retry. *)
Theorem X28_memory_me_is_bounded
    (userinfo : Json → UserInfo) (env : Env) (q_userId : option string)
    (w : World) :
  ∃ reply w' evs,
    SalesforceLiveMemoryRoutes.me userinfo env q_userId w = (Normal reply, w')
    ∧ trace w' = (trace w ++ evs)%list
    ∧ (api_calls evs ≤ 6)%nat
    ∧ (token_posts evs ≤ 3)%nat.
Proof.
  rewrite memory_me_cases. cbv zeta.
  set (user := userOf q_userId).
  match goal with
  | |- context [makeSalesforceApiCall env user ?ep GET None ?w0] =>
      destruct (memory_call_bounded env user ep GET None w0)
        as (evs1 & Ht1 & Ha1 & Hp1);
      destruct (makeSalesforceApiCall env user ep GET None w0)
        as [[response|e1] w1]
  end; simpl in Ht1.
  { destruct (respond_run userinfo user response w1)
      as (reply & line & ->).
    eexists reply, _, _. split; [done|]. simpl.
    rewrite Ht1, <- !app_assoc. split; [reflexivity|].
    unfold token_posts, api_calls in *.
    rewrite !filter_app, !length_app. simpl. lia. }
  match goal with
  | |- context [makeSalesforceApiCall env user ?ep GET None ?w0] =>
      destruct (memory_call_bounded env user ep GET None w0)
        as (evs2 & Ht2 & Ha2 & Hp2);
      destruct (makeSalesforceApiCall env user ep GET None w0)
        as [[validation|e2] w2]
  end; simpl in Ht2.
  2:{ destruct (fail_run "Error fetching Salesforce user info:"
                  "Failed to fetch user information" e1 w2) as (reply & ->).
      eexists reply, _, _. split; [done|]. simpl.
      rewrite Ht2, Ht1, <- !app_assoc. split; [reflexivity|].
      unfold token_posts, api_calls in *.
      rewrite !filter_app, !length_app. simpl. lia. }
  match goal with
  | |- context [makeSalesforceApiCall env user ?ep GET None w2] =>
      destruct (memory_call_bounded env user ep GET None w2)
        as (evs3 & Ht3 & Ha3 & Hp3);
      destruct (makeSalesforceApiCall env user ep GET None w2)
        as [[response|e3] w3]
  end; simpl in Ht3.
  - destruct (respond_run userinfo user response w3) as (reply & line & ->).
    eexists reply, _, _. split; [done|]. simpl.
    rewrite Ht3, Ht2, Ht1, <- !app_assoc. split; [reflexivity|].
    unfold token_posts, api_calls in *.
    rewrite !filter_app, !length_app. simpl. lia.
  - destruct (fail_run "Error fetching Salesforce user info:"
                "Failed to fetch user information" e1 w3) as (reply & ->).
    eexists reply, _, _. split; [done|]. simpl.
    rewrite Ht3, Ht2, Ht1, <- !app_assoc. split; [reflexivity|].
    unfold token_posts, api_calls in *.
    rewrite !filter_app, !length_app. simpl. lia.
Qed.



End MemoryRoutesFacts.
